(** * B402 payment client: authorization, allowance gate and verify/settle flow

    A shallow embedding of the Python package [b402] (client.py, wallet.py,
    approval.py, types.py) and the properties of its payment protocol.

    Layout:
    - [Py]: the fragment of the Python runtime the package relies on
      (exceptions, [str]/[int]/[float] conversions, binary64 arithmetic,
      [%.4f] formatting, decoded JSON values);
    - [Effects]: the error-and-trace monad in which the collaborators
      (chain node, facilitator, signer, clock, standard output) are called;
    - [types], [approval], [wallet], [client]: the modules of the package;
    - the theorems about them. *)

From Stdlib Require Import ZArith String Ascii List Bool Lia.
From Stdlib Require Import DecimalString DecimalZ.
From Stdlib Require Import Floats.SpecFloat.
Import ListNotations.

#[local] Set Warnings "-register-all".

Local Open Scope string_scope.
Local Open Scope Z_scope.

(* ===================================================================== *)
(** * The Python runtime fragment *)
(* ===================================================================== *)

Module Py.

(** An exception, instance of a subclass of [Exception]: its class name and
    [str(e)].  [KeyboardInterrupt] and [SystemExit], which [except Exception]
    lets through, are not represented. *)
Record exn : Type := mk_exn { exn_class : string; exn_str : string }.

(** The outcome of evaluating an expression. *)
Inductive result (A : Type) : Type :=
| Ok (a : A)
| Raise (e : exn).
Arguments Ok {A} a.
Arguments Raise {A} e.

Definition ValueError (m : string) : exn := mk_exn "ValueError" m.
Definition OverflowError (m : string) : exn := mk_exn "OverflowError" m.
Definition AttributeError (m : string) : exn := mk_exn "AttributeError" m.
Definition ZeroDivisionError (m : string) : exn := mk_exn "ZeroDivisionError" m.

(** ** Characters and strings

    A [string] stands for the Python [str] with the same code points, each
    below 256 (U+0000 to U+00FF).  The conversions below follow CPython on
    every such [str]; a [str] with a character from U+0100 on, a decimal
    digit of another script for one, has no counterpart here. *)

Definition chars (s : string) : list ascii := list_ascii_of_string s.
Definition text (l : list ascii) : string := string_of_list_ascii l.

Definition code (c : ascii) : N := N_of_ascii c.

(** The characters that [float] and [int] strip: the ASCII white space and,
    among the others below 256, U+0085 and U+00A0. *)
Definition is_space (c : ascii) : bool :=
  ((9 <=? code c) && (code c <=? 13))%N || (code c =? 32)%N
  || (code c =? 133)%N || (code c =? 160)%N.

Definition is_digit (c : ascii) : bool :=
  ((48 <=? code c) && (code c <=? 57))%N.

Definition digit_val (c : ascii) : Z := Z.of_N (code c - 48).

Definition lower (c : ascii) : ascii :=
  if ((65 <=? code c) && (code c <=? 90))%N then ascii_of_N (code c + 32) else c.

Fixpoint lstrip (l : list ascii) : list ascii :=
  match l with
  | c :: r => if is_space c then lstrip r else l
  | [] => []
  end.

Definition strip (l : list ascii) : list ascii := rev (lstrip (rev (lstrip l))).

(** [s.rstrip("/")] *)
Fixpoint lstrip_char (x : ascii) (l : list ascii) : list ascii :=
  match l with
  | c :: r => if Ascii.eqb c x then lstrip_char x r else l
  | [] => []
  end.

Definition rstrip_slash (s : string) : string :=
  text (rev (lstrip_char "/"%char (rev (chars s)))).

Fixpoint span (p : ascii -> bool) (l : list ascii) : list ascii * list ascii :=
  match l with
  | c :: r => if p c then let '(a, b) := span p r in (c :: a, b) else ([], l)
  | [] => ([], [])
  end.

Definition digits_val (ds : list ascii) : Z :=
  fold_left (fun a c => 10 * a + digit_val c) ds 0.

Definition chars_eqb (a b : list ascii) : bool := String.eqb (text a) (text b).

(** ** [str(int)] and [repr(str)] *)

Definition str_of_int (z : Z) : string := NilZero.string_of_int (Z.to_int z).

Definition hex_digit (n : N) : ascii :=
  nth (N.to_nat n) (chars "0123456789abcdef") "0"%char.

Definition repr_char (quote c : ascii) : list ascii :=
  if Ascii.eqb c "\"%char then chars "\\"
  else if Ascii.eqb c quote then "\"%char :: [c]
  else if (code c =? 9)%N then chars "\t"
  else if (code c =? 10)%N then chars "\n"
  else if (code c =? 13)%N then chars "\r"
  else if ((code c <? 32) || ((127 <=? code c) && (code c <=? 160)) || (code c =? 173))%N
       then "\"%char :: "x"%char :: hex_digit (code c / 16) :: [hex_digit (code c mod 16)]
  else [c].

Definition has_char (x : ascii) (l : list ascii) : bool := existsb (Ascii.eqb x) l.

(** The double-quote character. *)
Definition dquote : ascii := ascii_of_N 34.

Definition repr_str (s : string) : string :=
  let l := chars s in
  let quote := if has_char "'"%char l && negb (has_char dquote l)
               then dquote else "'"%char in
  text (quote :: (flat_map (repr_char quote) l ++ [quote])%list).

(** ** binary64 *)

Definition float : Type := spec_float.

Definition prec : Z := 53.
Definition emax : Z := 1024.

Definition float_neg (x : float) : bool :=
  match x with
  | S754_zero s | S754_infinity s | S754_finite s _ _ => s
  | S754_nan => false
  end.

(** The binary64 value nearest to [num / den] (ties to even). *)
Definition nearest_ratio (s : bool) (num den : positive) : float :=
  SFdiv prec emax (S754_finite s num 0) (S754_finite false den 0).

(** The binary64 value nearest to [(-1)^s * d * 10^e10]. *)
Definition nearest_decimal (s : bool) (d : Z) (e10 : Z) : float :=
  match d with
  | Zpos p =>
      if 0 <=? e10 then nearest_ratio s (p * Z.to_pos (10 ^ e10)) 1
      else nearest_ratio s p (Z.to_pos (10 ^ (- e10)))
  | _ => S754_zero s
  end.

(** ** [float(str)] *)

Definition parse_sign (l : list ascii) : bool * list ascii :=
  match l with
  | c :: r =>
      if Ascii.eqb c "-"%char then (true, r)
      else if Ascii.eqb c "+"%char then (false, r)
      else (false, l)
  | [] => (false, l)
  end.

(** Underscores may only stand between two digits; they are dropped. *)
Fixpoint drop_underscores (prev : ascii) (l : list ascii) : option (list ascii) :=
  match l with
  | [] => if Ascii.eqb prev "_"%char then None else Some []
  | c :: r =>
      if Ascii.eqb c "_"%char then
        if is_digit prev then drop_underscores c r else None
      else if Ascii.eqb prev "_"%char && negb (is_digit c) then None
      else option_map (cons c) (drop_underscores c r)
  end.

Definition parse_inf_or_nan (l : list ascii) : option float :=
  let '(s, r) := parse_sign l in
  let w := map lower r in
  if chars_eqb w (chars "inf") || chars_eqb w (chars "infinity")
  then Some (S754_infinity s)
  else if chars_eqb w (chars "nan") then Some S754_nan
  else None.

Definition is_exp_mark (c : ascii) : bool :=
  Ascii.eqb c "e"%char || Ascii.eqb c "E"%char.

(** [sign] digits [. digits] [e [sign] digits], at least one mantissa digit:
    the sign, the digits read as an integer, and the power of ten. *)
Definition parse_decimal (l : list ascii) : option (bool * Z * Z) :=
  let '(s, r) := parse_sign l in
  let '(ip, r1) := span is_digit r in
  let '(fp, r2) :=
    match r1 with
    | c :: r' => if Ascii.eqb c "."%char then span is_digit r' else ([], r1)
    | [] => ([], r1)
    end in
  let mant := digits_val (ip ++ fp)%list in
  let scale := Z.of_nat (length fp) in
  match (ip ++ fp)%list with
  | [] => None
  | _ :: _ =>
      match r2 with
      | [] => Some (s, mant, - scale)
      | c :: r3 =>
          if is_exp_mark c then
            let '(es, r4) := parse_sign r3 in
            match r4 with
            | [] => None
            | _ :: _ =>
                if forallb is_digit r4 then
                  let e := if es then - digits_val r4 else digits_val r4 in
                  Some (s, mant, e - scale)
                else None
            end
          else None
      end
  end.

Definition parse_number (l : list ascii) : option float :=
  match parse_decimal l with
  | Some (s, mant, e10) => Some (nearest_decimal s mant e10)
  | None => None
  end.

Definition float_of_str (s : string) : result float :=
  let bad := Raise (ValueError ("could not convert string to float: " ++ repr_str s)) in
  let l := strip (chars s) in
  match (if has_char "_"%char l then drop_underscores zero l else Some l) with
  | None => bad
  | Some l' =>
      match parse_inf_or_nan l' with
      | Some f => Ok f
      | None =>
          match parse_number l' with
          | Some f => Ok f
          | None => bad
          end
      end
  end.

(** ** [float(int)], [float * int], [int(float)], [int / int] *)

Definition float_of_int (z : Z) : result float :=
  match binary_normalize prec emax z 0 false with
  | S754_infinity _ => Raise (OverflowError "int too large to convert to float")
  | f => Ok f
  end.

Definition float_mul_int (x : float) (n : Z) : result float :=
  match float_of_int n with
  | Ok y => Ok (SFmul prec emax x y)
  | Raise e => Raise e
  end.

(** Truncation towards zero. *)
Definition int_of_float (x : float) : result Z :=
  match x with
  | S754_zero _ => Ok 0
  | S754_infinity _ => Raise (OverflowError "cannot convert float infinity to integer")
  | S754_nan => Raise (ValueError "cannot convert float NaN to integer")
  | S754_finite s m e =>
      let a := if 0 <=? e then Zpos m * 2 ^ e else Zpos m / 2 ^ (- e) in
      Ok (if s then - a else a)
  end.

Definition int_truediv (a b : Z) : result float :=
  match b with
  | 0 => Raise (ZeroDivisionError "division by zero")
  | _ =>
      let neg := xorb (a <? 0) (b <? 0) in
      match a with
      | 0 => Ok (S754_zero neg)
      | _ =>
          match nearest_ratio neg (Z.to_pos (Z.abs a)) (Z.to_pos (Z.abs b)) with
          | S754_infinity _ =>
              Raise (OverflowError "integer division result too large for a float")
          | f => Ok f
          end
      end
  end.

(** ** [int(str)] *)

Definition int_of_str (s : string) : result Z :=
  let bad := Raise (ValueError ("invalid literal for int() with base 10: " ++ repr_str s)) in
  let l := strip (chars s) in
  match (if has_char "_"%char l then drop_underscores zero l else Some l) with
  | None => bad
  | Some l' =>
      let '(neg, ds) := parse_sign l' in
      match ds with
      | [] => bad
      | _ :: _ =>
          if forallb is_digit ds
          then Ok (if neg then - digits_val ds else digits_val ds)
          else bad
      end
  end.

(** ** [format(x, ".Nf")] *)

Definition round_half_even (n d : Z) : Z :=
  let q := n / d in
  match (2 * (n mod d)) ?= d with
  | Lt => q
  | Gt => q + 1
  | Eq => if Z.even q then q else q + 1
  end.

Fixpoint zeros (n : nat) : string :=
  match n with
  | O => ""
  | S k => "0" ++ zeros k
  end.

Definition zero_pad (w : nat) (s : string) : string :=
  zeros (w - String.length s) ++ s.

Definition format_f (p : nat) (x : float) : string :=
  match x with
  | S754_nan => "nan"
  | S754_infinity s => if s then "-inf" else "inf"
  | _ =>
      let scale := 10 ^ Z.of_nat p in
      let n :=
        match x with
        | S754_finite _ m e =>
            if 0 <=? e then Zpos m * 2 ^ e * scale
            else round_half_even (Zpos m * scale) (2 ^ (- e))
        | _ => 0
        end in
      (if float_neg x then "-" else "") ++ str_of_int (n / scale) ++
      match p with
      | O => ""
      | S _ => "." ++ zero_pad p (str_of_int (n mod scale))
      end
  end.

(** ** [repr(float)]: the shortest decimal that reads back as the same value *)

(** A finite positive value as a fraction. *)
Definition ratio_of (m : positive) (e : Z) : Z * Z :=
  if 0 <=? e then (Zpos m * 2 ^ e, 1) else (Zpos m, 2 ^ (- e)).

(** [scale10 (n, d) q] is [n / d / 10^q] as a fraction. *)
Definition scale10 (x : Z * Z) (q : Z) : Z * Z :=
  let '(n, d) := x in
  if 0 <=? q then (n, d * 10 ^ q) else (n * 10 ^ (- q), d).

(** The least [k] from [k] on with [x < 10^k]. *)
Fixpoint decimal_point (fuel : nat) (x : Z * Z) (k : Z) : Z :=
  match fuel with
  | O => k
  | S fuel' =>
      let '(n, d) := scale10 x k in
      if n <? d then k else decimal_point fuel' x (k + 1)
  end.

(** The closest [nd]-digit decimal [c * 10^q] that reads back as
    [S754_finite false m e], if there is one. *)
Definition short_candidate (m : positive) (e : Z) (k : Z) (nd : Z) : option (Z * Z) :=
  let q := k - nd in
  let '(n, d) := scale10 (ratio_of m e) q in
  let lo := n / d in
  let hi := lo + 1 in
  let reads c :=
    match nearest_decimal false c q with
    | S754_finite false m' e' => Pos.eqb m' m && (e' =? e)
    | _ => false
    end in
  match reads lo, reads hi with
  | true, true => Some (round_half_even n d, q)
  | true, false => Some (lo, q)
  | false, true => Some (hi, q)
  | false, false => None
  end.

Fixpoint shortest (fuel : nat) (m : positive) (e : Z) (k : Z) (nd : Z) : Z * Z :=
  match fuel with
  | O => (Zpos m, 0)
  | S fuel' =>
      match short_candidate m e k nd with
      | Some r => r
      | None => shortest fuel' m e k (nd + 1)
      end
  end.

Fixpoint drop_zeros (fuel : nat) (c q : Z) : Z * Z :=
  match fuel with
  | O => (c, q)
  | S fuel' => if (c mod 10 =? 0) && negb (c =? 0) then drop_zeros fuel' (c / 10) (q + 1) else (c, q)
  end.

Definition repr_float (x : float) : string :=
  match x with
  | S754_nan => "nan"
  | S754_infinity s => if s then "-inf" else "inf"
  | S754_zero s => if s then "-0.0" else "0.0"
  | S754_finite s m e =>
      let bits := Zpos (digits2_pos m) + e in
      let k := decimal_point 8 (ratio_of m e) ((bits - 1) * 30103 / 100000 - 2) in
      let '(c0, q0) := shortest 17 m e k 1 in
      let '(c, q) := drop_zeros 20 c0 q0 in
      let ds := str_of_int c in
      let len := Z.of_nat (String.length ds) in
      let decpt := len + q in
      (if s then "-" else "") ++
      (if (decpt <=? -4) || (16 <? decpt) then
         String.substring 0 1 ds ++
         (if 1 <? len then "." ++ String.substring 1 (String.length ds - 1) ds else "") ++
         "e" ++ (if decpt - 1 <? 0 then "-" else "+") ++
         zero_pad 2 (str_of_int (Z.abs (decpt - 1)))
       else if decpt <=? 0 then "0." ++ zeros (Z.to_nat (- decpt)) ++ ds
       else if len <=? decpt then ds ++ zeros (Z.to_nat (decpt - len)) ++ ".0"
       else String.substring 0 (Z.to_nat decpt) ds ++ "." ++
            String.substring (Z.to_nat decpt) (String.length ds - Z.to_nat decpt) ds)
  end.

(** ** Decoded JSON values *)

Inductive json : Type :=
| JNull
| JBool (b : bool)
| JInt (z : Z)
| JFloat (x : float)
| JStr (s : string)
| JList (l : list json)
| JDict (d : list (string * json)).

Definition type_name (v : json) : string :=
  match v with
  | JNull => "NoneType"
  | JBool _ => "bool"
  | JInt _ => "int"
  | JFloat _ => "float"
  | JStr _ => "str"
  | JList _ => "list"
  | JDict _ => "dict"
  end.

(** Truth value testing. *)
Definition truthy (v : json) : bool :=
  match v with
  | JNull => false
  | JBool b => b
  | JInt z => negb (z =? 0)
  | JFloat (S754_zero _) => false
  | JFloat _ => true
  | JStr s => negb (String.eqb s "")
  | JList l => match l with [] => false | _ => true end
  | JDict d => match d with [] => false | _ => true end
  end.

Fixpoint lookup (k : string) (d : list (string * json)) : option json :=
  match d with
  | [] => None
  | (k', v) :: r => if String.eqb k k' then Some v else lookup k r
  end.

(** [v.get(k, default)]; only a dict has the method. *)
Definition get (v : json) (k : string) (default : json) : result json :=
  match v with
  | JDict d => Ok (match lookup k d with Some x => x | None => default end)
  | _ => Raise (AttributeError ("'" ++ type_name v ++ "' object has no attribute 'get'"))
  end.

Fixpoint join (sep : string) (l : list string) : string :=
  match l with
  | [] => ""
  | [x] => x
  | x :: r => x ++ sep ++ join sep r
  end.

Fixpoint repr (v : json) : string :=
  match v with
  | JNull => "None"
  | JBool b => if b then "True" else "False"
  | JInt z => str_of_int z
  | JFloat x => repr_float x
  | JStr s => repr_str s
  | JList l => "[" ++ join ", " (map repr l) ++ "]"
  | JDict d =>
      "{" ++ join ", " (map (fun kv => repr_str (fst kv) ++ ": " ++ repr (snd kv)) d) ++ "}"
  end.

(** [str(v)], which is what an f-string field [{v}] inserts. *)
Definition str (v : json) : string :=
  match v with
  | JStr s => s
  | _ => repr v
  end.

End Py.

(* ===================================================================== *)
(** * Collaborators and effects *)
(* ===================================================================== *)

(** types.py *)
Module types.

(** [NetworkType = Literal["mainnet", "testnet"]] *)
Inductive NetworkType : Type := mainnet | testnet.

(** [@dataclass class PaymentResult].  The annotations are not enforced:
    [success], [tx_hash] and [error] hold whatever Python value the call site
    stores ([True]/[False], a string, [None], or a value taken from the
    facilitator's response). *)
Record PaymentResult : Type := mk_PaymentResult {
  success : Py.json;
  tx_hash : Py.json;
  error : Py.json;
  payer : string;
  recipient : string;
  amount : string;
  token : string
}.

End types.

Module Effects.
Import Py types.

(** The [requirements] dict built by [B402.pay]. *)
Record Requirements : Type := mk_Requirements {
  scheme : string;
  asset : string;
  payTo : string;
  maxAmountRequired : string;
  maxTimeoutSeconds : Z;
  req_network : string;
  relayerContract : string
}.

(** The [authorization] dict signed by [process_payment]. *)
Record Authorization : Type := mk_Authorization {
  auth_from : string;
  auth_to : string;
  auth_value : Z;
  validAfter : Z;
  validBefore : Z;
  auth_nonce : string          (* the 32 nonce bytes, in hex *)
}.

(** The EIP-712 [domain] dict. *)
Record Domain : Type := mk_Domain {
  domain_name : string;
  domain_version : string;
  chainId : Z;
  verifyingContract : string
}.

(** The payload returned by [process_payment]; every authorization field is
    a string here. *)
Record Payload : Type := mk_Payload {
  x402Version : Z;
  p_scheme : string;
  p_network : string;
  p_token : string;
  p_from : string;
  p_to : string;
  p_value : string;
  p_validAfter : string;
  p_validBefore : string;
  p_nonce : string;
  p_signature : string
}.

(** What [approve_token] asks web3 to build: the call
    [token.functions.approve(spender, amount)] on the token contract and the
    transaction fields given to [build_transaction]. *)
Record Transaction : Type := mk_Transaction {
  tx_contract : string;
  tx_spender : string;
  tx_amount : Z;
  tx_from : string;
  tx_nonce : Z;
  tx_gas : Z;
  tx_gasPrice : Z
}.

(** A [requests.Response]: [.status_code], [.text], [.json()]. *)
Record Response : Type := mk_Response {
  status_code : Z;
  resp_text : string;
  resp_json : result json
}.

(** Calls that leave the process: JSON-RPC calls to the chain node and HTTP
    posts to the facilitator. *)
Inductive event : Type :=
| RpcAllowance (net : NetworkType) (token owner spender : string)
| RpcTransactionCount (net : NetworkType) (address : string)
| RpcGasPrice (net : NetworkType)
| RpcBuildTransaction (net : NetworkType) (tx : Transaction)
| RpcSendRawTransaction (net : NetworkType) (raw : string)
| RpcWaitReceipt (net : NetworkType) (txid : string)
| HttpPost (url : string) (payload : Payload) (requirements : Requirements).

(** What the collaborators answer.  Each field is the behaviour of one
    library call, as a function of its arguments. *)
Record World : Type := mk_World {
  (* os.environ.get("PRIVATE_KEY") *)
  environ_PRIVATE_KEY : option string;
  (* Account.from_key(key).address *)
  from_key : string -> result string;
  (* to_checksum_address(address) *)
  to_checksum_address : string -> result string;
  (* int(time.time()) *)
  time_now : Z;
  (* secrets.token_hex(32) *)
  token_hex : string;
  (* account.sign_message(encode_typed_data(...)).signature.hex() *)
  sign_message : string -> Domain -> Authorization -> result string;
  (* token.functions.allowance(owner, spender).call() *)
  allowance_call : NetworkType -> string -> string -> string -> result Z;
  (* w3.eth.get_transaction_count(address) *)
  get_transaction_count : NetworkType -> string -> result Z;
  (* w3.eth.gas_price *)
  gas_price : NetworkType -> result Z;
  (* token.functions.approve(spender, amount).build_transaction({...}) *)
  build_transaction : NetworkType -> Transaction -> result string;
  (* account.sign_transaction(tx).rawTransaction *)
  sign_transaction : string -> string -> result string;
  (* w3.eth.send_raw_transaction(raw).hex() *)
  send_raw_transaction : NetworkType -> string -> result string;
  (* w3.eth.wait_for_transaction_receipt(tx_hash) *)
  wait_for_transaction_receipt : NetworkType -> string -> result unit;
  (* requests.post(url, json={"paymentPayload": ..., "paymentRequirements": ...}) *)
  requests_post : string -> Payload -> Requirements -> result Response;
  (* print(s): the write of a line to sys.stdout *)
  stdout_write : string -> result unit
}.

(** A computation: it extends the trace of outside calls and either returns
    or raises. *)
Definition M (A : Type) : Type := list event -> result A * list event.

Definition ret {A} (a : A) : M A := fun t => (Ok a, t).

Definition bind {A B} (m : M A) (f : A -> M B) : M B :=
  fun t =>
    match m t with
    | (Ok a, t') => f a t'
    | (Raise e, t') => (Raise e, t')
    end.

(** A library call that stays inside the process. *)
Definition pure {A} (r : result A) : M A := fun t => (r, t).

(** A call that leaves the process. *)
Definition call {A} (ev : event) (r : result A) : M A :=
  fun t => (r, (t ++ [ev])%list).

(** [try: m  except Exception as e: h e] *)
Definition try_except {A} (m : M A) (h : exn -> M A) : M A :=
  fun t =>
    match m t with
    | (Ok a, t') => (Ok a, t')
    | (Raise e, t') => h e t'
    end.

(** The outcome of [m] as a value. *)
Definition attempt {A} (m : M A) : M (result A) :=
  fun t => let '(r, t') := m t in (Ok r, t').

(** [if debug: m], for the debug prints. *)
Definition when (b : bool) (m : M unit) : M unit :=
  if b then m else ret tt.

(** [print(s)]: it stays on the machine, and raises when the write does. *)
Definition print (W : World) (s : string) : M unit := pure (stdout_write W s).

(** The [requirements] dict as a value, for the f-string that prints it. *)
Definition requirements_dict (r : Requirements) : json :=
  JDict [ ("scheme", JStr (scheme r));
          ("asset", JStr (asset r));
          ("payTo", JStr (payTo r));
          ("maxAmountRequired", JStr (maxAmountRequired r));
          ("maxTimeoutSeconds", JInt (maxTimeoutSeconds r));
          ("network", JStr (req_network r));
          ("relayerContract", JStr (relayerContract r)) ].

(** The payload dict as a value, for the f-string that prints it. *)
Definition payload_dict (p : Payload) : json :=
  JDict [ ("x402Version", JInt (x402Version p));
          ("scheme", JStr (p_scheme p));
          ("network", JStr (p_network p));
          ("token", JStr (p_token p));
          ("payload",
           JDict [ ("authorization",
                    JDict [ ("from", JStr (p_from p));
                            ("to", JStr (p_to p));
                            ("value", JStr (p_value p));
                            ("validAfter", JStr (p_validAfter p));
                            ("validBefore", JStr (p_validBefore p));
                            ("nonce", JStr (p_nonce p)) ]);
                   ("signature", JStr (p_signature p)) ]) ].

Definition run {A} (m : M A) : result A * list event := m [].

Module Notations.
  Notation "x <- m ;; k" := (bind m (fun x => k))
    (at level 61, m at next level, right associativity).
  Notation "' pat <- m ;; k" := (bind m (fun x => match x with pat => k end))
    (at level 61, pat pattern, m at next level, right associativity).
  Notation "m ;;; k" := (bind m (fun _ => k))
    (at level 61, right associativity).
End Notations.

End Effects.

(* ===================================================================== *)
(** * approval.py *)
(* ===================================================================== *)

Module approval.
Import Py types Effects Effects.Notations.

Definition RPC_URLS (network : NetworkType) : string :=
  match network with
  | mainnet => "https://bsc-dataseed1.binance.org"
  | testnet => "https://data-seed-prebsc-1-s1.binance.org:8545"
  end.

(** [min_amount = None] stands for a call that leaves the argument out. *)
Definition check_approval (W : World) (private_key token_address spender_address : string)
    (network : NetworkType) (min_amount : option Z) : M (bool * Z) :=
  let min_amount := match min_amount with Some a => a | None => 0 end in
  account <- pure (from_key W private_key) ;;
  token <- pure (to_checksum_address W token_address) ;;
  owner <- pure (to_checksum_address W account) ;;
  spender <- pure (to_checksum_address W spender_address) ;;
  allowance <- call (RpcAllowance network token owner spender)
                    (allowance_call W network token owner spender) ;;
  ret (allowance >=? min_amount, allowance).

(** [amount = None] stands for a call that leaves the argument out. *)
Definition approve_token (W : World) (private_key token_address spender_address : string)
    (network : NetworkType) (amount : option Z) : M string :=
  account <- pure (from_key W private_key) ;;
  token <- pure (to_checksum_address W token_address) ;;
  (* Default to $10,000 worth (reasonable cap, not infinite) *)
  let amount := match amount with Some a => a | None => 10000 * 10 ^ 18 end in
  nonce <- call (RpcTransactionCount network account)
                (get_transaction_count W network account) ;;
  spender <- pure (to_checksum_address W spender_address) ;;
  gasPrice <- call (RpcGasPrice network) (gas_price W network) ;;
  let request := mk_Transaction token spender amount account nonce 100000 gasPrice in
  tx <- call (RpcBuildTransaction network request) (build_transaction W network request) ;;
  signed <- pure (sign_transaction W private_key tx) ;;
  tx_hash <- call (RpcSendRawTransaction network signed)
                  (send_raw_transaction W network signed) ;;
  call (RpcWaitReceipt network tx_hash)
       (wait_for_transaction_receipt W network tx_hash) ;;;
  ret ("0x" ++ tx_hash).

(** The dict returned by [ensure_approval]. *)
Record ApprovalStatus : Type := mk_ApprovalStatus {
  approved : bool;
  allowance : Z;
  status_tx_hash : option string
}.

Definition ensure_approval (W : World) (private_key token_address spender_address : string)
    (network : NetworkType) (auto_approve : bool) : M ApprovalStatus :=
  '(is_approved, allowance) <-
     check_approval W private_key token_address spender_address network None ;;
  if is_approved then ret (mk_ApprovalStatus true allowance None)
  else if negb auto_approve then ret (mk_ApprovalStatus false 0 None)
  else
    tx_hash <- approve_token W private_key token_address spender_address network None ;;
    ret (mk_ApprovalStatus true (2 ^ 256 - 1) (Some tx_hash)).

End approval.

(* ===================================================================== *)
(** * wallet.py *)
(* ===================================================================== *)

Module wallet.
Import Py types Effects Effects.Notations.

(** Sign payment authorization with EIP-712 *)
Definition process_payment (W : World) (requirements : Requirements)
    (private_key : string) : M Payload :=
  account <- pure (from_key W private_key) ;;
  let now := time_now W in
  let valid_before := now + maxTimeoutSeconds requirements in
  let nonce := "0x" ++ token_hex W in
  a_from <- pure (to_checksum_address W account) ;;
  a_to <- pure (to_checksum_address W (payTo requirements)) ;;
  value <- pure (int_of_str (maxAmountRequired requirements)) ;;
  let authorization :=
    mk_Authorization a_from a_to value 0 valid_before
      (String.substring 2 (String.length nonce - 2) nonce) in
  contract <- pure (to_checksum_address W (relayerContract requirements)) ;;
  let domain :=
    mk_Domain "B402" "1"
      (if String.eqb (req_network requirements) "bsc" then 56 else 97) contract in
  signature <- pure (sign_message W private_key domain authorization) ;;
  ret (mk_Payload 1 "exact" (req_network requirements) (asset requirements)
         (auth_from authorization) (auth_to authorization)
         (str_of_int (auth_value authorization))
         (str_of_int (validAfter authorization))
         (str_of_int (validBefore authorization))
         nonce ("0x" ++ signature)).

End wallet.

(* ===================================================================== *)
(** * client.py *)
(* ===================================================================== *)

Module client.
Import Py types Effects Effects.Notations.

(** [class B402] *)
Record B402 : Type := mk_B402 {
  network : NetworkType;
  facilitator_url : string;
  debug : bool
}.

Definition TOKENS (n : NetworkType) : list (string * string) :=
  match n with
  | mainnet =>
      [ ("USD1", "0x8d0d000ee44948fc98c9b98a4fa4921476f08b0d");
        ("USDT", "0x55d398326f99059fF775485246999027B3197955");
        ("USDC", "0x8AC76a51cc950d9822D68b83fE1Ad97B32Cd580d") ]
  | testnet =>
      [ ("USDT", "0x337610d27c682E347C9cD60BD4b3b107C9d34dDd") ]
  end.

Definition RELAYERS (n : NetworkType) : string :=
  match n with
  | mainnet => "0xE1C2830d5DDd6B49E9c46EbE03a98Cb44CD8eA5a"
  | testnet => "0x62150F2c3A29fDA8bCf22c0F22Eb17270FCBb78A"
  end.

(** [str(network)] *)
Definition network_name (n : NetworkType) : string :=
  match n with
  | mainnet => "mainnet"
  | testnet => "testnet"
  end.

(** [B402(network, facilitator_url, debug)] *)
Definition init (network : NetworkType) (facilitator_url : string) (debug : bool) : B402 :=
  mk_B402 network (rstrip_slash facilitator_url) debug.

Definition default_facilitator_url : string := "https://facilitator.b402.ai".

(** [d.get(k)] on a table of strings. *)
Fixpoint table_get (k : string) (d : list (string * string)) : option string :=
  match d with
  | [] => None
  | (k', v) :: r => if String.eqb k k' then Some v else table_get k r
  end.

(** [not v] for a value that is a string or [None]. *)
Definition missing (v : option string) : bool :=
  match v with
  | None => true
  | Some s => String.eqb s ""
  end.

(** The value of a string-or-[None] that was tested to be present. *)
Definition the (v : option string) : string :=
  match v with
  | Some s => s
  | None => ""
  end.

(** Line 78: [int(float(amount) * 10**18)] *)
Definition amount_to_wei (amount : string) : result Z :=
  match float_of_str amount with
  | Raise e => Raise e
  | Ok amount_float =>
      match float_mul_int amount_float (10 ^ 18) with
      | Raise e => Raise e
      | Ok scaled => int_of_float scaled
      end
  end.

(** Line 96: the f-string of the insufficient-allowance failure. *)
Definition insufficient_allowance (allowance_readable needed_readable : float)
    (token : string) : string :=
  "Insufficient allowance. Have: " ++ format_f 4 allowance_readable ++ " " ++ token
  ++ ", Need: " ++ format_f 4 needed_readable ++ " " ++ token
  ++ ". Run: b402.setup('" ++ token ++ "') or pay(..., auto_approve=True)".

(** Lines 111 and 169: the default cap of an approval, 10,000 tokens. *)
Definition approval_cap : Z := 10000 * 10 ^ 18.

(** [PaymentResult(success=False, error=..., payer=..., ...)] *)
Definition failed (error payer recipient amount token : string) : PaymentResult :=
  mk_PaymentResult (JBool false) JNull (JStr error) payer recipient amount token.

Section Pay.

Variable W : World.
Variable self : B402.
Variables (amount token recipient : string) (timeout_seconds : Z) (auto_approve : bool).

(** Lines 134-142: the [requirements] dict. *)
Definition build_requirements (token_address : string) (amount_wei : Z) : Requirements :=
  mk_Requirements "exact" token_address recipient (str_of_int amount_wei)
    timeout_seconds
    (match network self with mainnet => "bsc" | testnet => "bsc-testnet" end)
    (RELAYERS (network self)).

Definition verify_url : string := facilitator_url self ++ "/verify".
Definition settle_url : string := facilitator_url self ++ "/settle".

(** Lines 150-215: post verify, then settle, and map the answer. *)
Definition verify_and_settle (account : string) (payload : Payload)
    (requirements : Requirements) : M PaymentResult :=
  verify_response <- call (HttpPost verify_url payload requirements)
                          (requests_post W verify_url payload requirements) ;;
  if negb (status_code verify_response =? 200) then
    ret (failed ("Verify request failed: HTTP " ++ str_of_int (status_code verify_response)
                 ++ " - " ++ resp_text verify_response)
           account recipient amount token)
  else
    verify_data <- pure (resp_json verify_response) ;;
    when (debug self) (print W ("[DEBUG] Verify response: " ++ str verify_data)) ;;;
    is_valid <- pure (get verify_data "isValid" JNull) ;;
    if negb (truthy is_valid) then
      error_msg <- pure (get verify_data "invalidReason" (JStr "Invalid signature")) ;;
      (* Include full response for debugging *)
      let error_detail := str error_msg ++ " | Response: " ++ str verify_data in
      ret (failed error_detail account recipient amount token)
    else
      settle_response <- call (HttpPost settle_url payload requirements)
                              (requests_post W settle_url payload requirements) ;;
      if negb (status_code settle_response =? 200) then
        ret (failed ("Settle request failed: HTTP " ++ str_of_int (status_code settle_response)
                     ++ " - " ++ resp_text settle_response)
               account recipient amount token)
      else
        settle_data <- pure (resp_json settle_response) ;;
        succeeded <- pure (get settle_data "success" (JBool false)) ;;
        error_detail <-
          (if negb (truthy succeeded) then
             reason <- pure (get settle_data "errorReason" (JStr "Unknown error")) ;;
             (* Include response for debugging *)
             if truthy settle_data
             then ret (JStr (str reason ++ " | Response: " ++ str settle_data))
             else ret reason
           else ret JNull) ;;
        succeeded' <- pure (get settle_data "success" (JBool false)) ;;
        transaction <- pure (get settle_data "transaction" JNull) ;;
        ret (mk_PaymentResult succeeded' transaction error_detail
               account recipient amount token).

(** Lines 133-215: build the requirements, sign, verify, settle. *)
Definition proceed (private_key account token_address : string) (amount_wei : Z)
    : M PaymentResult :=
  let requirements := build_requirements token_address amount_wei in
  payload <- wallet.process_payment W requirements private_key ;;
  when (debug self)
       (print W ("[DEBUG] Requirements: " ++ str (requirements_dict requirements)) ;;;
        print W ("[DEBUG] Payload: " ++ str (payload_dict payload))) ;;;
  verify_and_settle account payload requirements.

(** Lines 62-215: the body of the [try]. *)
Definition pay_try (private_key : string) : M PaymentResult :=
  account <- pure (from_key W private_key) ;;
  (* Get token details *)
  let token_address := table_get token (TOKENS (network self)) in
  if missing token_address then
    ret (failed ("Token " ++ token ++ " not supported on " ++ network_name (network self))
           account recipient amount token)
  else
    let token_address := the token_address in
    (* Calculate amount in wei *)
    amount_wei <- pure (amount_to_wei amount) ;;
    (* Check if we have enough allowance for this specific payment *)
    ' (is_approved, current_allowance) <-
      approval.check_approval W private_key token_address (RELAYERS (network self))
        (network self) (Some amount_wei) ;;
    (* Handle approval if needed *)
    if negb is_approved then
      if negb auto_approve then
        allowance_readable <- pure (int_truediv current_allowance (10 ^ 18)) ;;
        needed_readable <- pure (int_truediv amount_wei (10 ^ 18)) ;;
        ret (failed (insufficient_allowance allowance_readable needed_readable token)
               account recipient amount token)
      else
        (* Auto-approve with reasonable cap ($10k default) *)
        when (debug self)
             (shown <- pure (int_truediv current_allowance (10 ^ 18)) ;;
              print W ("[DEBUG] Insufficient allowance (" ++ format_f 4 shown ++ " "
                       ++ token ++ ")") ;;;
              print W ("[DEBUG] Auto-approving " ++ token ++ " for up to $10,000...")) ;;;
        outcome <- attempt (
          (* Approve $10k worth (or amount needed, whichever is larger) *)
          let approval_amount := Z.max amount_wei approval_cap in
          tx_hash <- approval.approve_token W private_key token_address
                       (RELAYERS (network self)) (network self) (Some approval_amount) ;;
          when (debug self)
               (shown <- pure (int_truediv approval_amount (10 ^ 18)) ;;
                print W ("[DEBUG] Approved " ++ format_f 0 shown ++ " " ++ token ++ "!") ;;;
                print W ("[DEBUG] TX: " ++ tx_hash)) ;;;
          ret tx_hash) ;;
        match outcome with
        | Raise approve_error =>
            ret (failed ("Auto-approval failed: " ++ exn_str approve_error
                         ++ ". Please run: b402.setup('" ++ token ++ "')")
                   account recipient amount token)
        | Ok _ =>
            (* Proceed with payment *)
            proceed private_key account token_address amount_wei
        end
    else
      (* Proceed with payment *)
      proceed private_key account token_address amount_wei.

(** [B402.pay]: send payment (reads PRIVATE_KEY from environment). *)
Definition pay : M PaymentResult :=
  if missing (environ_PRIVATE_KEY W) then
    ret (failed "PRIVATE_KEY environment variable not set" "" recipient amount token)
  else
    let private_key := the (environ_PRIVATE_KEY W) in
    try_except (pay_try private_key)
      (fun e => ret (failed (exn_str e) "" recipient amount token)).

End Pay.



(** [B402.check_approval]: check if token is approved for B402 relayer. *)
Definition check_approval (W : World) (self : B402) (token : string) : M (bool * Z) :=
  if missing (environ_PRIVATE_KEY W) then
    pure (Raise (ValueError "PRIVATE_KEY environment variable not set"))
  else
    let private_key := the (environ_PRIVATE_KEY W) in
    if missing (table_get token (TOKENS (network self))) then
      pure (Raise (ValueError ("Token " ++ token ++ " not supported on "
                               ++ network_name (network self))))
    else
      let token_address := the (table_get token (TOKENS (network self))) in
      approval.check_approval W private_key token_address (RELAYERS (network self))
        (network self) None.

(** [B402.setup]: one-time setup, approve relayer to spend tokens. *)
Definition setup (W : World) (self : B402) (token : string) (auto_approve : bool)
    : M approval.ApprovalStatus :=
  if missing (environ_PRIVATE_KEY W) then
    pure (Raise (ValueError "PRIVATE_KEY environment variable not set"))
  else
    let private_key := the (environ_PRIVATE_KEY W) in
    if missing (table_get token (TOKENS (network self))) then
      pure (Raise (ValueError ("Token " ++ token ++ " not supported on "
                               ++ network_name (network self))))
    else
      let token_address := the (table_get token (TOKENS (network self))) in
      approval.ensure_approval W private_key token_address (RELAYERS (network self))
        (network self) auto_approve.

(** The module-level [pay] factory function. *)
Definition pay_factory (W : World) (amount token recipient : string) (network : NetworkType)
    (timeout_seconds : Z) (auto_approve debug : bool) : M PaymentResult :=
  let client := init network default_facilitator_url debug in
  pay W client amount token recipient timeout_seconds auto_approve.

End client.

(* ===================================================================== *)
(** * Concrete collaborators, for the runs used below *)
(* ===================================================================== *)

Module Scenarios.
Import Py types Effects.

Definition key : string := "0x4c0883a69102937d6231471b5dbb6204fe5129617082792ae468d01a3f362318".
Definition payer_address : string := "0x2c7536E3605D9C16a7a3D7b1898e529396a65c23".
Definition recipient_address : string := "0xABCDabcdABCDabcdABCDabcdABCDabcdABCDabcd".

Definition verify_address : string := "https://facilitator.b402.ai/verify".

Definition valid : Response :=
  mk_Response 200 "{'isValid': true}" (Ok (JDict [("isValid", JBool true)])).

Definition expired : Response :=
  mk_Response 200 "{'isValid': false, 'invalidReason': 'expired'}"
    (Ok (JDict [("isValid", JBool false); ("invalidReason", JStr "expired")])).

Definition settled : Response :=
  mk_Response 200 "{'success': true, 'transaction': '0x1234'}"
    (Ok (JDict [("success", JBool true); ("transaction", JStr "0x1234")])).

(** A settle answer that reports success and carries no transaction. *)
Definition settled_without_transaction : Response :=
  mk_Response 200 "{'success': true}" (Ok (JDict [("success", JBool true)])).

Definition connection_lost : exn :=
  mk_exn "ConnectionError" "Connection aborted.".

(** A world in which the wallet holds [allowance] towards the relayer, the
    clock reads [now], and the facilitator answers [verify] and [settle]. *)
Definition world (private_key : option string) (allowance now : Z)
    (verify settle : result Response) : World :=
  {| environ_PRIVATE_KEY := private_key;
     from_key := fun _ => Ok payer_address;
     to_checksum_address := fun a => Ok a;
     time_now := now;
     token_hex := "00112233445566778899aabbccddeeff00112233445566778899aabbccddeeff";
     sign_message := fun _ _ _ => Ok "5161";
     allowance_call := fun _ _ _ _ => Ok allowance;
     get_transaction_count := fun _ _ => Ok 7;
     gas_price := fun _ => Ok 3000000000;
     build_transaction := fun _ tx => Ok "f86c";
     sign_transaction := fun _ tx => Ok ("02" ++ tx);
     send_raw_transaction := fun _ _ => Ok "a9f0";
     wait_for_transaction_receipt := fun _ _ => Ok tt;
     requests_post := fun url _ _ =>
       if String.eqb url verify_address then verify else settle;
     stdout_write := fun _ => Ok tt |}.

Definition now : Z := 1700000000.

Definition client_default : client.B402 :=
  client.init mainnet client.default_facilitator_url false.

Definition usdt : string := "0x55d398326f99059fF775485246999027B3197955".

(** The requirements of a payment of 0.01 USDT with the default timeout. *)
Definition requirements_3600 : Requirements :=
  client.build_requirements client_default recipient_address 3600 usdt (10 ^ 16).

(** Enough allowance; the facilitator verifies and settles. *)
Definition funded : World := world (Some key) (10 ^ 19) now (Ok valid) (Ok settled).

(** No allowance at all. *)
Definition unfunded : World := world (Some key) 0 now (Ok valid) (Ok settled).

(** An allowance of 5 base units. *)
Definition underfunded : World := world (Some key) 5 now (Ok valid) (Ok settled).

(** PRIVATE_KEY is not set. *)
Definition no_credential : World := world None 0 now (Ok valid) (Ok settled).

(** The connection drops while the settle call is in flight. *)
Definition settle_lost_world : World :=
  world (Some key) (10 ^ 19) now (Ok valid) (Raise connection_lost).

(** The connection drops on the verify call; settle is never reached. *)
Definition verify_lost_world : World :=
  world (Some key) (10 ^ 19) now (Raise connection_lost) (Ok settled).

(** The facilitator answers settle with HTTP 502. *)
Definition not_json : exn :=
  mk_exn "JSONDecodeError" "Expecting value: line 1 column 1 (char 0)".

Definition bad_gateway : Response := mk_Response 502 "Bad Gateway" (Raise not_json).

Definition settle_refused_world : World :=
  world (Some key) (10 ^ 19) now (Ok valid) (Ok bad_gateway).

(** The facilitator reports success and names no transaction. *)
Definition unconfirmed_world : World :=
  world (Some key) (10 ^ 19) now (Ok valid) (Ok settled_without_transaction).

(** The node accepts the approval, and the wait for its receipt times out. *)
Definition receipt_timeout : exn :=
  mk_exn "TimeExhausted" "Transaction is not in the chain after 120 seconds".

Definition receipt_lost_world : World :=
  {| environ_PRIVATE_KEY := Some key;
     from_key := fun _ => Ok payer_address;
     to_checksum_address := fun a => Ok a;
     time_now := now;
     token_hex := "00112233445566778899aabbccddeeff00112233445566778899aabbccddeeff";
     sign_message := fun _ _ _ => Ok "5161";
     allowance_call := fun _ _ _ _ => Ok 0;
     get_transaction_count := fun _ _ => Ok 7;
     gas_price := fun _ => Ok 3000000000;
     build_transaction := fun _ tx => Ok "f86c";
     sign_transaction := fun _ tx => Ok ("02" ++ tx);
     send_raw_transaction := fun _ _ => Ok "a9f0";
     wait_for_transaction_receipt := fun _ _ => Raise receipt_timeout;
     requests_post := fun url _ _ =>
       if String.eqb url verify_address then Ok valid else Ok settled;
     stdout_write := fun _ => Ok tt |}.

(** Standard output is a pipe whose reader has gone: every print raises. *)
Definition broken_pipe : exn := mk_exn "BrokenPipeError" "[Errno 32] Broken pipe".

Definition stdout_closed_world : World :=
  {| environ_PRIVATE_KEY := Some key;
     from_key := fun _ => Ok payer_address;
     to_checksum_address := fun a => Ok a;
     time_now := now;
     token_hex := "00112233445566778899aabbccddeeff00112233445566778899aabbccddeeff";
     sign_message := fun _ _ _ => Ok "5161";
     allowance_call := fun _ _ _ _ => Ok (10 ^ 19);
     get_transaction_count := fun _ _ => Ok 7;
     gas_price := fun _ => Ok 3000000000;
     build_transaction := fun _ tx => Ok "f86c";
     sign_transaction := fun _ tx => Ok ("02" ++ tx);
     send_raw_transaction := fun _ _ => Ok "a9f0";
     wait_for_transaction_receipt := fun _ _ => Ok tt;
     requests_post := fun url _ _ =>
       if String.eqb url verify_address then Ok valid else Ok settled;
     stdout_write := fun _ => Raise broken_pipe |}.

(** A client with debug on. *)
Definition client_debug : client.B402 :=
  client.init mainnet client.default_facilitator_url true.



(** [B402().pay(amount, "USDT", recipient, 3600, auto_approve)] in [w]. *)
Definition pay_in (w : World) (amount : string) (auto_approve : bool)
    : result PaymentResult * list event :=
  run (client.pay w client_default amount "USDT" recipient_address 3600 auto_approve).

End Scenarios.

(* ===================================================================== *)
(** * The conversion as the specification words it *)
(* ===================================================================== *)

Module Spec.
Import Py.

(** Follows the specification, for comparison with [client.amount_to_wei]:
    amount_base = floor(amount_decimal * 10^18), on the exact decimal. *)
Definition base_units (amount : string) : option Z :=
  match parse_decimal (strip (chars amount)) with
  | Some (s, mant, e10) =>
      let v := if s then - mant else mant in
      let e := e10 + 18 in
      Some (if 0 <=? e then v * 10 ^ e else v / 10 ^ (- e))
  | None => None
  end.

(** Follows the specification: base units read back at 18-decimal scale. *)
Definition decimal_of_base_units (n : Z) : string :=
  let q := n / 10 ^ 18 in
  let r := n mod 10 ^ 18 in
  if r =? 0 then str_of_int q
  else str_of_int q ++ "." ++
       text (rev (lstrip_char "0"%char (rev (chars (zero_pad 18 (str_of_int r)))))).

End Spec.

(* ===================================================================== *)
(** * What is observed of a run *)
(* ===================================================================== *)

Module Observations.
Import Py types Effects.

Definition is_http (ev : event) : bool :=
  match ev with
  | HttpPost _ _ _ => true
  | _ => false
  end.

(** The amount of the [approve] call an event builds, if it builds one. *)
Definition approve_amount (ev : event) : option Z :=
  match ev with
  | RpcBuildTransaction _ tx => Some (tx_amount tx)
  | _ => None
  end.

(** The authorization value an event posts to the facilitator, if any. *)
Definition posted_value (ev : event) : option string :=
  match ev with
  | HttpPost _ payload _ => Some (p_value payload)
  | _ => None
  end.

(** A post to the settle endpoint of the default facilitator. *)
Definition is_http_to_settle (ev : event) : bool :=
  match ev with
  | HttpPost url _ _ => String.eqb url (client.settle_url Scenarios.client_default)
  | _ => false
  end.

(** A read of the allowance. *)
Definition is_allowance_read (ev : event) : bool :=
  match ev with
  | RpcAllowance _ _ _ _ => true
  | _ => false
  end.

(** An event that hands a signed transaction to the chain node. *)
Definition sends_transaction (ev : event) : bool :=
  match ev with
  | RpcSendRawTransaction _ _ => true
  | _ => false
  end.

(** The URL an event posts to, if it posts. *)
Definition posted_url (ev : event) : option string :=
  match ev with
  | HttpPost url _ _ => Some url
  | _ => None
  end.

(** [k] slashes. *)
Definition slashes (k : nat) : string := text (repeat "/"%char k).

(** The whole amount [n], written in decimal, converts to [n * 10^18]. *)
Definition converts_exactly (n : Z) : bool :=
  match client.amount_to_wei (str_of_int n) with
  | Ok w => w =? n * 10 ^ 18
  | Raise _ => false
  end.

(** The debug prints of a client go through: debug is off, or every write to
    standard output returns. *)
Definition prints_succeed (W : World) (self : client.B402) : Prop :=
  client.debug self = true -> forall s, stdout_write W s = Ok tt.

(** An event of [approve_token] called for [amount]. *)
Definition approval_event (amount : Z) (ev : event) : Prop :=
  is_http ev = false /\ forall a, approve_amount ev = Some a -> a = amount.

(** An event that neither posts to the facilitator nor builds an approval. *)
Definition read_event (ev : event) : Prop :=
  is_http ev = false /\ approve_amount ev = None.

(** What [pay] may ask of the chain before the exchange with the facilitator:
    no HTTP post, and an [approve] only under auto-approve, after an allowance
    read below the amount, for the larger of the amount and the cap. *)
Definition approval_policy (W : World) (self : client.B402) (amount : string)
    (auto_approve : bool) (ev : event) : Prop :=
  is_http ev = false /\
  forall x, approve_amount ev = Some x ->
    auto_approve = true /\
    exists w token owner spender a,
      client.amount_to_wei amount = Ok w /\
      allowance_call W (client.network self) token owner spender = Ok a /\
      a < w /\
      x = Z.max w client.approval_cap.

(** The verify answer that lets [pay] go on to settle. *)
Definition verify_passed (W : World) (self : client.B402) (payload : Payload)
    (requirements : Requirements) : Prop :=
  exists response data v,
    requests_post W (client.verify_url self) payload requirements = Ok response /\
    status_code response = 200 /\
    resp_json response = Ok data /\
    get data "isValid" JNull = Ok v /\
    truthy v = true.

(** How the settle post ends, and what [verify_and_settle] makes of it. *)
Inductive settle_outcome (W : World) (self : client.B402)
    (amount token recipient account : string) (payload : Payload)
    (requirements : Requirements) : result PaymentResult -> Prop :=
| settle_lost e :
    requests_post W (client.settle_url self) payload requirements = Raise e ->
    settle_outcome W self amount token recipient account payload requirements (Raise e)
| settle_refused response :
    requests_post W (client.settle_url self) payload requirements = Ok response ->
    status_code response <> 200 ->
    settle_outcome W self amount token recipient account payload requirements
      (Ok (client.failed
             ("Settle request failed: HTTP " ++ str_of_int (status_code response)
              ++ " - " ++ resp_text response)
             account recipient amount token))
| settle_unreadable response e :
    requests_post W (client.settle_url self) payload requirements = Ok response ->
    status_code response = 200 ->
    settle_outcome W self amount token recipient account payload requirements (Raise e)
| settle_answered response data result :
    requests_post W (client.settle_url self) payload requirements = Ok response ->
    status_code response = 200 ->
    resp_json response = Ok data ->
    get data "success" (JBool false) = Ok (success result) ->
    get data "transaction" JNull = Ok (tx_hash result) ->
    (truthy (success result) = true -> error result = JNull) ->
    (truthy (success result) = false -> exists m, error result = JStr m) ->
    settle_outcome W self amount token recipient account payload requirements (Ok result).

(** [part] occurs in [message]. *)
Definition mentions (message part : string) : Prop :=
  exists before after, message = before ++ part ++ after.

(** A decimal digit, which is none of the characters [int] treats specially. *)
Definition plain_digit (c : ascii) : bool :=
  is_digit c && negb (is_space c) && negb (Ascii.eqb c "_"%char)
  && negb (Ascii.eqb c "-"%char) && negb (Ascii.eqb c "+"%char).

End Observations.

(* ===================================================================== *)
(** * Facts about the runtime fragment *)
(* ===================================================================== *)

Import Py types Effects Observations.

(** ** Decimal strings read back *)

Lemma uint_chars_plain (d : Decimal.uint) :
  forallb plain_digit (chars (NilEmpty.string_of_uint d)) = true.
Proof. induction d; simpl; try rewrite IHd; reflexivity. Qed.

Lemma uint_chars_acc (d : Decimal.uint) (p : positive) :
  fold_left (fun a c => 10 * a + digit_val c) (chars (NilEmpty.string_of_uint d)) (Zpos p)
  = Zpos (Pos.of_uint_acc d p).
Proof.
  revert p. induction d; intros p; cbn [NilEmpty.string_of_uint chars list_ascii_of_string fold_left Pos.of_uint_acc];
    try reflexivity; fold (chars (NilEmpty.string_of_uint d));
    rewrite <- IHd; f_equal;
    match goal with
    | |- context [digit_val ?c] =>
        let v := eval vm_compute in (digit_val c) in change (digit_val c) with v
    end; lia.
Qed.

Lemma uint_chars_val (d : Decimal.uint) :
  digits_val (chars (NilEmpty.string_of_uint d)) = Z.of_uint d.
Proof.
  unfold digits_val, Z.of_uint.
  induction d; cbn [NilEmpty.string_of_uint chars list_ascii_of_string fold_left Pos.of_uint];
    try reflexivity; fold (chars (NilEmpty.string_of_uint d)).
  - exact IHd.
  - apply (uint_chars_acc d 1).
  - apply (uint_chars_acc d 2).
  - apply (uint_chars_acc d 3).
  - apply (uint_chars_acc d 4).
  - apply (uint_chars_acc d 5).
  - apply (uint_chars_acc d 6).
  - apply (uint_chars_acc d 7).
  - apply (uint_chars_acc d 8).
  - apply (uint_chars_acc d 9).
Qed.

Lemma lstrip_plain (l : list ascii) :
  forallb plain_digit l = true -> lstrip l = l.
Proof.
  destruct l as [|c r]; [reflexivity|]. simpl. intros H.
  apply andb_prop in H. destruct H as [H _]. unfold plain_digit in H.
  destruct (is_space c); [|reflexivity].
  rewrite andb_false_r in H. discriminate.
Qed.

Lemma strip_plain (l : list ascii) :
  forallb plain_digit l = true -> strip l = l.
Proof.
  intros H. unfold strip. rewrite (lstrip_plain l H).
  rewrite lstrip_plain; [apply rev_involutive|].
  rewrite forallb_forall in *. intros c Hc. apply H. now apply in_rev.
Qed.

Lemma no_underscore_plain (l : list ascii) :
  forallb plain_digit l = true -> has_char "_"%char l = false.
Proof.
  unfold has_char.
  induction l as [|c r IH]; [reflexivity|]. cbn [forallb existsb]. intros H.
  apply andb_prop in H. destruct H as [Hc Hr]. rewrite (IH Hr).
  unfold plain_digit in Hc. rewrite Ascii.eqb_sym.
  destruct (Ascii.eqb c "_"); [|reflexivity].
  rewrite !andb_false_r in Hc; simpl in Hc. discriminate.
Qed.

Lemma is_digit_plain (l : list ascii) :
  forallb plain_digit l = true -> forallb is_digit l = true.
Proof.
  induction l as [|c r IH]; [reflexivity|]. simpl. intros H.
  apply andb_prop in H. destruct H as [Hc Hr]. rewrite (IH Hr).
  unfold plain_digit in Hc. destruct (is_digit c); [reflexivity|discriminate].
Qed.

Lemma parse_sign_plain (l : list ascii) :
  forallb plain_digit l = true -> parse_sign l = (false, l).
Proof.
  destruct l as [|c r]; [reflexivity|]. simpl. intros H.
  apply andb_prop in H. destruct H as [Hc _]. unfold plain_digit in Hc.
  destruct (Ascii.eqb c "-"); [rewrite !andb_false_r in Hc; discriminate|].
  destruct (Ascii.eqb c "+"); [rewrite !andb_false_r in Hc; discriminate|].
  reflexivity.
Qed.

(** The digits of a natural number, as [str] writes them. *)
Lemma int_of_digits (l : list ascii) :
  l <> [] -> forallb plain_digit l = true ->
  int_of_str (text l) = Ok (digits_val l).
Proof.
  intros Hne H. unfold int_of_str, chars, text.
  rewrite list_ascii_of_string_of_list_ascii.
  rewrite (strip_plain l H), (no_underscore_plain l H), (parse_sign_plain l H).
  destruct l; [congruence|]. now rewrite (is_digit_plain _ H).
Qed.

Lemma int_of_minus_digits (l : list ascii) :
  l <> [] -> forallb plain_digit l = true ->
  int_of_str (text ("-"%char :: l)) = Ok (- digits_val l).
Proof.
  intros Hne H. unfold int_of_str, chars, text.
  rewrite list_ascii_of_string_of_list_ascii.
  assert (Hs : strip ("-"%char :: l) = "-"%char :: l).
  { unfold strip. change (lstrip ("-"%char :: l)) with ("-"%char :: l).
    destruct l as [|c r]; [congruence|].
    assert (E : exists a b, rev ("-"%char :: c :: r) = a :: b /\ is_space a = false).
    { destruct (rev (c :: r)) as [|a b] eqn:Er.
      - apply (f_equal (@rev _)) in Er. rewrite rev_involutive in Er. discriminate.
      - exists a, (b ++ ["-"%char])%list. split.
        + change (rev ("-"%char :: c :: r)) with (rev (c :: r) ++ ["-"%char])%list.
          now rewrite Er.
        + rewrite forallb_forall in H.
          assert (Ha : In a (c :: r)) by (apply in_rev; rewrite Er; now left).
          apply H in Ha. unfold plain_digit in Ha.
          destruct (is_space a); [|reflexivity].
          rewrite andb_false_r in Ha. discriminate. }
    destruct E as (a & b & Er & Ha). rewrite Er. simpl. rewrite Ha.
    rewrite <- Er. apply rev_involutive. }
  rewrite Hs.
  assert (Hu : has_char "_"%char ("-"%char :: l) = false)
    by (simpl; apply (no_underscore_plain l H)).
  rewrite Hu. cbn [parse_sign]. change (Ascii.eqb "-" "-") with true. cbv iota.
  destruct l; [congruence|]. now rewrite (is_digit_plain _ H).
Qed.

Lemma uint_string_nonempty (d : Decimal.uint) :
  d <> Decimal.Nil -> chars (NilEmpty.string_of_uint d) <> [].
Proof. destruct d; simpl; congruence. Qed.

Lemma nilzero_uint (d : Decimal.uint) :
  exists l, NilZero.string_of_uint d = text l /\ l <> [] /\
            forallb plain_digit l = true /\ digits_val l = Z.of_uint d.
Proof.
  destruct (Decimal.uint_eq_dec d Decimal.Nil) as [->|Hd].
  - exists ["0"%char]. repeat split; discriminate || reflexivity.
  - exists (chars (NilEmpty.string_of_uint d)). repeat split.
    + unfold text, chars. rewrite string_of_list_ascii_of_string.
      destruct d; congruence || reflexivity.
    + now apply uint_string_nonempty.
    + apply uint_chars_plain.
    + apply uint_chars_val.
Qed.

(** [int(str(z)) == z] *)
Lemma int_of_str_of_int (z : Z) : int_of_str (str_of_int z) = Ok z.
Proof.
  unfold str_of_int. rewrite <- (DecimalZ.of_to z) at 2.
  destruct (Z.to_int z) as [d|d]; cbn [NilZero.string_of_int Z.of_int];
    destruct (nilzero_uint d) as (l & -> & Hne & Hp & <-).
  - now apply int_of_digits.
  - change (String "-" (text l)) with (text ("-"%char :: l)).
    now apply int_of_minus_digits.
Qed.

(** ** Bounds on binary64 rounding *)

Lemma digits2_pos_bounds (p : positive) :
  2 ^ (Zpos (digits2_pos p) - 1) <= Zpos p < 2 ^ Zpos (digits2_pos p).
Proof.
  induction p as [p IH|p IH|]; cbn [digits2_pos].
  - rewrite Pos2Z.inj_succ.
    replace (Z.succ (Zpos (digits2_pos p)) - 1) with (Z.succ (Zpos (digits2_pos p) - 1)) by lia.
    rewrite !Z.pow_succ_r by lia. lia.
  - rewrite Pos2Z.inj_succ.
    replace (Z.succ (Zpos (digits2_pos p)) - 1) with (Z.succ (Zpos (digits2_pos p) - 1)) by lia.
    rewrite !Z.pow_succ_r by lia. lia.
  - cbn. lia.
Qed.

Lemma Zdigits2_nonneg (m : Z) : 0 <= Zdigits2 m.
Proof. destruct m; cbn; lia. Qed.

(** A non-negative number below [2^k] has at most [k] binary digits. *)
Lemma Zdigits2_le (m k : Z) : 0 <= m < 2 ^ k -> 0 <= k -> Zdigits2 m <= k.
Proof.
  intros [H0 Hk] Hk0. destruct m as [|p|p]; cbn; try lia.
  destruct (digits2_pos_bounds p) as [Hlo _].
  destruct (Z.le_gt_cases (Zpos (digits2_pos p)) k) as [|Hgt]; [assumption|].
  assert (2 ^ k <= 2 ^ (Zpos (digits2_pos p) - 1)) by (apply Z.pow_le_mono_r; lia).
  lia.
Qed.

Lemma Zdigits2_lt (m : Z) : 0 <= m -> m < 2 ^ Zdigits2 m.
Proof.
  intros H. destruct m as [|p|p]; cbn; try lia.
  apply digits2_pos_bounds.
Qed.

Lemma shr_1_m (r : shr_record) :
  0 <= shr_m r -> shr_m (shr_1 r) = shr_m r / 2.
Proof.
  destruct r as [m r s]. cbn [shr_m]. intros H.
  destruct m as [|[p|p|]|p]; cbn [shr_1 shr_m]; try lia; try reflexivity.
  - apply Z.div_unique with 1; lia.
  - apply Z.div_unique with 0; lia.
Qed.

Lemma iter_shr_1_m (p : positive) (r : shr_record) :
  0 <= shr_m r -> shr_m (iter_pos shr_1 p r) = shr_m r / 2 ^ Zpos p.
Proof.
  revert r. induction p as [p IH|p IH|]; intros r H; cbn [iter_pos].
  - assert (H1 : 0 <= shr_m (shr_1 r)) by (rewrite shr_1_m by auto; apply Z.div_pos; lia).
    assert (H2 : 0 <= shr_m (iter_pos shr_1 p (shr_1 r)))
      by (rewrite IH by auto; apply Z.div_pos; lia).
    rewrite IH, IH, shr_1_m by auto.
    rewrite !Z.div_div by lia. f_equal.
    replace (Zpos p~1) with (Zpos p + Zpos p + 1) by lia.
    rewrite !Z.pow_add_r by lia. change (2 ^ 1) with 2. ring.
  - assert (H2 : 0 <= shr_m (iter_pos shr_1 p r))
      by (rewrite IH by auto; apply Z.div_pos; lia).
    rewrite IH, IH by auto.
    rewrite !Z.div_div by lia. f_equal.
    replace (Zpos p~0) with (Zpos p + Zpos p) by lia.
    rewrite !Z.pow_add_r by lia. ring.
  - rewrite shr_1_m by auto. reflexivity.
Qed.

Lemma fexp_le (x : Z) : fexp prec emax x <= Z.max (x - 53) (-1074).
Proof. unfold fexp, emin, prec, emax. lia. Qed.

Lemma fexp_ge (x : Z) : x - 53 <= fexp prec emax x.
Proof. unfold fexp, emin, prec, emax. lia. Qed.

Lemma shr_record_of_loc_m (m : Z) (l : location) : shr_m (shr_record_of_loc m l) = m.
Proof. destruct l as [|[]]; reflexivity. Qed.

(** [shr_fexp] keeps at most 53 digits and does not raise the magnitude. *)
Lemma shr_fexp_bounds (m e : Z) (l : location) :
  0 <= m ->
  let '(r, e') := shr_fexp prec emax m e l in
  0 <= shr_m r /\
  Zdigits2 (shr_m r) <= 53 /\
  e' = Z.max e (fexp prec emax (Zdigits2 m + e)) /\
  Zdigits2 (shr_m r) + e' <= Z.max (Zdigits2 m + e) (fexp prec emax (Zdigits2 m + e)).
Proof.
  intros Hm. unfold shr_fexp, shr.
  pose proof (fexp_ge (Zdigits2 m + e)) as Hge.
  pose proof (Zdigits2_nonneg m) as Hd.
  pose proof (Zdigits2_lt m Hm) as Hlt.
  destruct (fexp prec emax (Zdigits2 m + e) - e) as [|n|n] eqn:En;
    rewrite ?shr_record_of_loc_m.
  1,3: repeat split; try lia.
  rewrite iter_shr_1_m by (rewrite shr_record_of_loc_m; lia).
  rewrite shr_record_of_loc_m.
  assert (Hq : 0 <= m / 2 ^ Zpos n) by (apply Z.div_pos; lia).
  set (k := Z.max (Zdigits2 m - Zpos n) 0).
  assert (Hk : Zdigits2 (m / 2 ^ Zpos n) <= k).
  { apply Zdigits2_le; [split; [assumption|]|lia].
    apply Z.div_lt_upper_bound; [lia|].
    rewrite <- Z.pow_add_r by lia.
    eapply Z.lt_le_trans; [exact Hlt|]. apply Z.pow_le_mono_r; lia. }
  repeat split; try lia.
Qed.

Lemma round_nearest_even_bounds (m : Z) (l : location) :
  m <= round_nearest_even m l <= m + 1.
Proof. destruct l as [|[]]; cbn; try lia. destruct (Z.even m); lia. Qed.

Lemma Zdigits2_succ (m m' : Z) :
  0 <= m -> m <= m' <= m + 1 -> Zdigits2 m' <= Zdigits2 m + 1.
Proof.
  intros Hm Hm'. pose proof (Zdigits2_lt m Hm). pose proof (Zdigits2_nonneg m).
  assert (0 < 2 ^ Zdigits2 m) by (apply Z.pow_pos_nonneg; lia).
  apply Zdigits2_le; [|lia]. rewrite Z.pow_add_r by lia. change (2 ^ 1) with 2. lia.
Qed.

(** What [binary_round_aux] returns when it is finite. *)
Lemma binary_round_aux_finite s m e l s' m' e' :
  0 <= m ->
  binary_round_aux prec emax s m e l = S754_finite s' m' e' ->
  Zpos m' < 2 ^ 53 /\ e' <= 971.
Proof.
  intros Hm. unfold binary_round_aux.
  pose proof (shr_fexp_bounds m e l Hm) as H1.
  destruct (shr_fexp prec emax m e l) as [r1 e1].
  destruct H1 as (H1a & H1b & H1c & H1d).
  pose proof (round_nearest_even_bounds (shr_m r1) (loc_of_shr_record r1)) as Hr.
  set (m1 := round_nearest_even (shr_m r1) (loc_of_shr_record r1)) in *.
  assert (Hm1 : 0 <= m1) by lia.
  pose proof (shr_fexp_bounds m1 e1 loc_Exact Hm1) as H2.
  destruct (shr_fexp prec emax m1 e1 loc_Exact) as [r2 e2].
  destruct H2 as (H2a & H2b & H2c & H2d).
  destruct (shr_m r2) as [|p|p] eqn:E2; try discriminate.
  destruct (e2 <=? emax - prec) eqn:Ee; try discriminate.
  intros [= <- <- <-]. apply Z.leb_le in Ee. unfold emax, prec in Ee.
  split; [|lia].
  pose proof (Zdigits2_lt (Zpos p) ltac:(lia)).
  eapply Z.lt_le_trans; [eassumption|]. apply Z.pow_le_mono_r; lia.
Qed.

(** When [binary_round_aux] cannot overflow. *)
Lemma binary_round_aux_not_infinite s m e l s' :
  0 <= m -> e <= 971 -> Zdigits2 m + e <= 1023 ->
  binary_round_aux prec emax s m e l <> S754_infinity s'.
Proof.
  intros Hm He Hd. unfold binary_round_aux.
  pose proof (shr_fexp_bounds m e l Hm) as H1.
  destruct (shr_fexp prec emax m e l) as [r1 e1].
  destruct H1 as (H1a & H1b & H1c & H1d).
  pose proof (round_nearest_even_bounds (shr_m r1) (loc_of_shr_record r1)) as Hr.
  set (m1 := round_nearest_even (shr_m r1) (loc_of_shr_record r1)) in *.
  assert (Hm1 : 0 <= m1) by lia.
  pose proof (Zdigits2_succ (shr_m r1) m1 H1a Hr) as Hs.
  pose proof (shr_fexp_bounds m1 e1 loc_Exact Hm1) as H2.
  destruct (shr_fexp prec emax m1 e1 loc_Exact) as [r2 e2].
  destruct H2 as (H2a & H2b & H2c & H2d).
  pose proof (fexp_le (Zdigits2 m + e)). pose proof (fexp_le (Zdigits2 m1 + e1)).
  destruct (shr_m r2) as [|p|p]; try discriminate.
  destruct (e2 <=? emax - prec) eqn:Ee; try discriminate.
  apply Z.leb_gt in Ee. unfold emax, prec in Ee. lia.
Qed.

(** A quotient by at least two of a numerator below [2^1024] does not
    overflow. *)
Lemma nearest_ratio_not_infinite (s s' : bool) (num den : positive) :
  Zpos num < 2 ^ 1024 -> 2 <= Zpos den ->
  nearest_ratio s num den <> S754_infinity s'.
Proof.
  intros Hnum Hden. unfold nearest_ratio, SFdiv, SFdiv_core_binary.
  set (e' := Z.min (fexp prec emax (Zdigits2 (Zpos num) + 0 - (Zdigits2 (Zpos den) + 0))) (0 - 0)).
  assert (He' : e' <= 0) by (subst e'; lia).
  assert (Hlow : -1074 <= e').
  { subst e'. unfold fexp, emin, prec, emax. lia. }
  set (m := match 0 - 0 - e' with
            | Zpos _ => Z.shiftl (Zpos num) (0 - 0 - e')
            | 0 => Zpos num
            | Zneg _ => 0
            end).
  assert (Hm : 0 <= m < 2 ^ (1024 - e')).
  { subst m. destruct (0 - 0 - e') as [|p|p] eqn:Es; try lia.
    - replace e' with 0 by lia. lia.
    - rewrite Z.shiftl_mul_pow2 by lia.
      replace (1024 - e') with (1024 + Zpos p) by lia.
      rewrite Z.pow_add_r by lia.
      assert (0 < 2 ^ Zpos p) by (apply Z.pow_pos_nonneg; lia). nia. }
  pose proof (Z.div_eucl_eq m (Zpos den) ltac:(lia)) as Heq.
  pose proof (Z.mod_pos_bound m (Zpos den) ltac:(lia)) as Hr.
  unfold Z.modulo in Hr.
  destruct (Z.div_eucl m (Zpos den)) as [q r].
  assert (Hq : 0 <= q) by nia.
  assert (Hq' : q < 2 ^ (1023 - e')).
  { replace (1024 - e') with (Z.succ (1023 - e')) in Hm by lia.
    rewrite Z.pow_succ_r in Hm by lia.
    assert (0 < 2 ^ (1023 - e')) by (apply Z.pow_pos_nonneg; lia). nia. }
  apply binary_round_aux_not_infinite; try lia.
  pose proof (Zdigits2_le q (1023 - e') (conj Hq Hq') ltac:(lia)). lia.
Qed.

(** [x / 10**18] is computed for every non-negative [x] below [2^1024]. *)
Lemma int_truediv_wei (x : Z) :
  0 <= x < 2 ^ 1024 -> exists f, int_truediv x (10 ^ 18) = Ok f.
Proof.
  intros Hx. unfold int_truediv.
  change (10 ^ 18) with 1000000000000000000.
  cbv iota. destruct x as [|p|p]; try lia.
  - eexists; reflexivity.
  - set (neg := xorb _ _).
    pose proof (nearest_ratio_not_infinite neg) as Hn.
    change (Z.to_pos (Z.abs (Zpos p))) with p.
    change (Z.to_pos (Z.abs 1000000000000000000)) with 1000000000000000000%positive.
    destruct (nearest_ratio neg p 1000000000000000000) eqn:E;
      try (eexists; reflexivity).
    exfalso. eapply Hn; [| |exact E]; lia.
Qed.

(** The base-unit amount of a payment is below [2^1024] in absolute value. *)
Lemma amount_to_wei_bound (amount : string) (w : Z) :
  client.amount_to_wei amount = Ok w -> - 2 ^ 1024 < w < 2 ^ 1024.
Proof.
  unfold client.amount_to_wei, float_mul_int.
  destruct (float_of_str amount) as [x|]; [|discriminate].
  destruct (float_of_int (10 ^ 18)) as [y|] eqn:Ey; [|discriminate].
  vm_compute in Ey. injection Ey as <-.
  assert (H1024 : 0 < 2 ^ 1024) by (apply Z.pow_pos_nonneg; lia).
  destruct x as [sx|sx| |sx mx ex]; cbn [SFmul]; unfold int_of_float;
    try discriminate; try (intros [= <-]; lia).
  destruct (binary_round_aux _ _ _ _ _ _) as [s'|s'| |s' m' e'] eqn:Er;
    try discriminate; try (intros [= <-]; lia).
  apply binary_round_aux_finite in Er; [|lia]. destruct Er as [Hm He].
  set (a := if 0 <=? e' then Zpos m' * 2 ^ e' else Zpos m' / 2 ^ (- e')).
  assert (Ha : 0 <= a < 2 ^ 1024).
  { subst a. destruct (0 <=? e') eqn:E0.
    - apply Z.leb_le in E0.
      assert (0 < 2 ^ e') by (apply Z.pow_pos_nonneg; lia).
      assert (2 ^ 53 * 2 ^ e' <= 2 ^ 1024).
      { rewrite <- Z.pow_add_r by lia. apply Z.pow_le_mono_r; lia. }
      nia.
    - apply Z.leb_gt in E0.
      assert (0 < 2 ^ (- e')) by (apply Z.pow_pos_nonneg; lia).
      split; [apply Z.div_pos; lia|].
      apply Z.div_lt_upper_bound; [lia|].
      assert (2 ^ 53 <= 2 ^ 1024) by (apply Z.pow_le_mono_r; lia). nia. }
  clearbody a. intros [= <-]. destruct s'; lia.
Qed.

(* ===================================================================== *)
(** * Stepping through the package's functions *)
(* ===================================================================== *)

Ltac unfold_effects :=
  unfold run, bind, ret, print, pure, call, try_except, attempt, when in *.

(** Case analysis on an innermost scrutinee of [H]. *)
Ltac split_match H :=
  match type of H with
  | context [match ?x with _ => _ end] =>
      lazymatch x with
      | context [match _ with _ => _ end] => fail
      | _ => destruct x eqn:?
      end
  end.

Ltac pair_inv H := injection H as <- <-.

Ltac steps H := repeat (split_match H; cbv beta match in H).

Ltac tidy :=
  repeat match goal with
    | H : ret _ _ = (_, _) |- _ => unfold ret in H
    | H : (_, _) = (_, _) |- _ => injection H as ? ?
    | H : Ok _ = Ok _ |- _ => injection H as ?
    | H : negb _ = true |- _ => apply negb_true_iff in H
    | H : negb _ = false |- _ => apply negb_false_iff in H
    | H : false = _ |- _ => symmetry in H
    | H : true = _ |- _ => symmetry in H
    | H : (_ =? _) = true |- _ => apply Z.eqb_eq in H
    | H : (_ =? _) = false |- _ => apply Z.eqb_neq in H
    end; subst.

(** ** approval.py *)

Lemma check_approval_steps W key tok sp net min t r t' :
  approval.check_approval W key tok sp net min t = (r, t') ->
  (exists e, r = Raise e /\ exists l, t' = (t ++ l)%list /\ Forall read_event l) \/
  (exists a b c allowance,
      r = Ok (allowance >=? match min with Some m => m | None => 0 end, allowance) /\
      t' = (t ++ [RpcAllowance net a b c])%list /\
      allowance_call W net a b c = Ok allowance).
Proof.
  unfold approval.check_approval. unfold_effects. intros H.
  steps H; pair_inv H.
  all: first
    [ right; do 4 eexists; split; [reflexivity|split; [reflexivity|eassumption]]
    | left; eexists; split; [reflexivity|];
      first [ exists []; split; [symmetry; apply app_nil_r|constructor]
            | eexists [_]; split; [reflexivity|repeat constructor] ] ].
Qed.

(** Every transaction [approve_token] builds is for the amount it was given,
    or for the default cap when it was given none. *)
Lemma approve_token_steps W key tok sp net amount t r t' :
  approval.approve_token W key tok sp net amount t = (r, t') ->
  exists l, t' = (t ++ l)%list /\
    Forall (approval_event
              match amount with Some a => a | None => 10000 * 10 ^ 18 end) l.
Proof.
  unfold approval.approve_token. unfold_effects. intros H.
  set (effective := match amount with Some a => a | None => 10000 * 10 ^ 18 end) in *.
  clearbody effective.
  steps H; pair_inv H; rewrite <- ?app_assoc; cbn [app];
    (eexists; split; [reflexivity || (symmetry; apply app_nil_r)|]);
    repeat constructor; cbn; intros ? [=]; congruence.
Qed.

(** A transaction id returned by [approve_token] is that of a raw transaction
    it sent. *)
Lemma approve_token_returns W key tok sp net amount t h t' :
  approval.approve_token W key tok sp net amount t = (Ok h, t') ->
  exists raw h0,
    send_raw_transaction W net raw = Ok h0 /\ h = "0x" ++ h0 /\
    In (RpcSendRawTransaction net raw) t'.
Proof.
  unfold approval.approve_token. unfold_effects. intros H.
  set (effective := match amount with Some a => a | None => 10000 * 10 ^ 18 end) in *.
  clearbody effective.
  steps H; try discriminate. injection H as <- <-.
  do 2 eexists. split; [eassumption|]. split; [reflexivity|].
  apply in_or_app. left. apply in_or_app. right. now left.
Qed.

(** ** wallet.py *)

Lemma process_payment_steps W requirements key t r t' :
  wallet.process_payment W requirements key t = (r, t') -> t' = t.
Proof.
  unfold wallet.process_payment. unfold_effects. intros H.
  steps H; pair_inv H; reflexivity.
Qed.

(** The fields of a payload that [process_payment] returns. *)
Lemma process_payment_fields W requirements key t payload t' :
  wallet.process_payment W requirements key t = (Ok payload, t') ->
  exists domain authorization signature,
    sign_message W key domain authorization = Ok signature /\
    p_signature payload = "0x" ++ signature /\
    validAfter authorization = 0 /\
    validBefore authorization = time_now W + maxTimeoutSeconds requirements /\
    int_of_str (maxAmountRequired requirements) = Ok (auth_value authorization) /\
    p_value payload = str_of_int (auth_value authorization) /\
    p_validAfter payload = str_of_int (validAfter authorization) /\
    p_validBefore payload = str_of_int (validBefore authorization).
Proof.
  unfold wallet.process_payment. unfold_effects. intros H.
  steps H; try discriminate.
  all: injection H as <- <-.
  all: do 3 eexists; split; [eassumption|].
  all: cbn [p_signature validAfter validBefore auth_value p_value p_validAfter p_validBefore].
  all: repeat split; try reflexivity; eassumption.
Qed.

(** ** client.py: before the exchange with the facilitator *)

Lemma geb_false (a b : Z) : (a >=? b) = false -> a < b.
Proof. rewrite Z.geb_leb. apply Z.leb_gt. Qed.

Lemma read_event_policy W self amount auto ev :
  read_event ev -> approval_policy W self amount auto ev.
Proof. intros [H1 H2]. split; [exact H1|]. intros x Hx. congruence. Qed.

Lemma policy_of_reads W self amount auto l :
  Forall read_event l -> Forall (approval_policy W self amount auto) l.
Proof. apply Forall_impl. intros ev. apply read_event_policy. Qed.

Lemma policy_of_allowance_read W self amount auto net a b c :
  approval_policy W self amount auto (RpcAllowance net a b c).
Proof. split; [reflexivity|]. intros x [=]. Qed.

Lemma policy_of_approval W self amount w token owner spender a l :
  client.amount_to_wei amount = Ok w ->
  allowance_call W (client.network self) token owner spender = Ok a ->
  (a >=? w) = false ->
  Forall (approval_event (Z.max w client.approval_cap)) l ->
  Forall (approval_policy W self amount true) l.
Proof.
  intros Hw Ha Hlt. apply Forall_impl. intros ev [H1 H2]. split; [exact H1|].
  intros x Hx. split; [reflexivity|].
  exists w, token, owner, spender, a. repeat split; auto using geb_false.
Qed.

Ltac policy :=
  cbn [app];
  repeat first
    [ apply Forall_nil
    | apply Forall_cons
    | apply Forall_app; split
    | apply policy_of_allowance_read
    | apply policy_of_reads; assumption
    | eapply policy_of_approval; eassumption ].

Lemma policy_not_http W self amount auto l u p r :
  Forall (approval_policy W self amount auto) l -> ~ In (HttpPost u p r) l.
Proof.
  intros H Hin. rewrite Forall_forall in H. apply H in Hin.
  destruct Hin as [Hh _]. discriminate.
Qed.

Lemma policy_no_http W self amount auto l :
  Forall (approval_policy W self amount auto) l ->
  forall ev, In ev l -> is_http ev = false.
Proof. intros H ev Hin. rewrite Forall_forall in H. now apply H. Qed.

(** A falsy value that has a [get] method is the empty dict. *)
Lemma falsy_dict (data : json) (k : string) (d v : json) :
  get data k d = Ok v -> truthy data = false -> v = d.
Proof.
  destruct data; try discriminate. destruct d0; [|discriminate].
  cbn. congruence.
Qed.

Lemma append_same_prefix (a b c : string) : a ++ b = a ++ c -> b = c.
Proof. induction a as [|x a IH]; cbn; [auto|]. intros [= H]. auto. Qed.

Lemma verify_url_not_settle_url (self : client.B402) :
  client.verify_url self <> client.settle_url self.
Proof.
  unfold client.verify_url, client.settle_url. intros H.
  apply append_same_prefix in H. discriminate.
Qed.

(** ** client.py: the exchange with the facilitator *)

Section Exchange.

Variables (W : World) (self : client.B402).
Variables (amount token recipient account : string).
Variables (payload : Payload) (requirements : Requirements).

Lemma verify_and_settle_steps t r t' :
  client.verify_and_settle W self amount token recipient account payload requirements t
    = (r, t') ->
  (t' = (t ++ [HttpPost (client.verify_url self) payload requirements])%list /\
   ((exists e, r = Raise e) \/
    (exists m, r = Ok (client.failed m account recipient amount token)))) \/
  (t' = (t ++ [HttpPost (client.verify_url self) payload requirements;
               HttpPost (client.settle_url self) payload requirements])%list /\
   verify_passed W self payload requirements /\
   settle_outcome W self amount token recipient account payload requirements r).
Proof.
  unfold client.verify_and_settle. unfold_effects. intros H.
  steps H; tidy.
  all: first
    [ left; split; [reflexivity|];
      first [ left; eexists; reflexivity | right; eexists; reflexivity ]
    | right; split; [rewrite <- app_assoc; reflexivity|]; split;
      [ do 3 eexists; repeat split; eassumption
      | first
          [ eapply settle_lost; eassumption
          | eapply settle_refused; eassumption
          | eapply settle_unreadable; eassumption
          | eapply settle_answered; try eassumption; cbn [success tx_hash error];
            first [ congruence
                  | intros _; eexists; reflexivity
                  | intros _; eexists; eapply falsy_dict; eassumption
                  | reflexivity ] ] ] ].
Qed.

End Exchange.

(** ** client.py: [pay] as a whole *)

Section Pay.

Variables (W : World) (self : client.B402).
Variables (amount token recipient : string) (timeout_seconds : Z) (auto_approve : bool).

(** Either [pay] ends before the exchange, with a failure, or it reaches the
    exchange and returns what the exchange returns, exceptions collapsed. *)
Lemma pay_outcomes res tr :
  run (client.pay W self amount token recipient timeout_seconds auto_approve) = (res, tr) ->
  (exists m p, res = Ok (client.failed m p recipient amount token) /\
               Forall (approval_policy W self amount auto_approve) tr) \/
  (exists account w payload pre r0,
      client.missing (environ_PRIVATE_KEY W) = false /\
      from_key W (client.the (environ_PRIVATE_KEY W)) = Ok account /\
      client.amount_to_wei amount = Ok w /\
      Forall (approval_policy W self amount auto_approve) pre /\
      client.verify_and_settle W self amount token recipient account payload
        (client.build_requirements self recipient timeout_seconds
           (client.the (client.table_get token (client.TOKENS (client.network self)))) w)
        pre = (r0, tr) /\
      res = Ok (match r0 with
                | Ok pr => pr
                | Raise e => client.failed (exn_str e) "" recipient amount token
                end)).
Proof.
  unfold client.pay, client.pay_try, client.proceed.
  unfold_effects. intros H.
  steps H; tidy.
  all: repeat match goal with
         | H : approval.check_approval _ _ _ _ _ _ _ = _ |- _ =>
             apply check_approval_steps in H;
             destruct H as [(? & ? & ? & ? & ?)|(? & ? & ? & ? & ? & ? & ?)]
         | H : approval.approve_token _ _ _ _ _ _ _ = _ |- _ =>
             apply approve_token_steps in H; destruct H as (? & ? & ?)
         | H : wallet.process_payment _ _ _ _ = _ |- _ =>
             apply process_payment_steps in H
         end; tidy; try discriminate.
  all: first
    [ left; do 2 eexists; split; [reflexivity|]; solve [policy]
    | right; do 5 eexists; repeat (split; [eassumption || reflexivity|]);
      split; [|split; [eassumption|reflexivity]]; solve [policy] ].
Qed.

(** Where a settle post sits in the trace of [pay], and what came of it. *)
Lemma settle_post_context res tr payload requirements :
  run (client.pay W self amount token recipient timeout_seconds auto_approve) = (res, tr) ->
  In (HttpPost (client.settle_url self) payload requirements) tr ->
  exists pre account r0,
    tr = (pre ++ [HttpPost (client.verify_url self) payload requirements;
                  HttpPost (client.settle_url self) payload requirements])%list /\
    (forall ev, In ev pre -> is_http ev = false) /\
    verify_passed W self payload requirements /\
    settle_outcome W self amount token recipient account payload requirements r0 /\
    res = Ok (match r0 with
              | Ok pr => pr
              | Raise e => client.failed (exn_str e) "" recipient amount token
              end).
Proof.
  intros Hrun Hin.
  destruct (pay_outcomes _ _ Hrun)
    as [(m & p & _ & Hpol)|(account & w & payload0 & pre & r0 & _ & _ & _ & Hpol & Hex & Hres)].
  - exfalso. eapply policy_not_http; eassumption.
  - apply verify_and_settle_steps in Hex.
    destruct Hex as [[-> _]|(-> & Hv & Hs)]; apply in_app_or in Hin;
      destruct Hin as [Hin|Hin];
      try (exfalso; eapply policy_not_http; eassumption).
    + destruct Hin as [[= Hu _ _]|[]]. exfalso. eapply verify_url_not_settle_url; eauto.
    + destruct Hin as [[= Hu _ _]|[[= <- <-]|[]]].
      * exfalso. eapply verify_url_not_settle_url; eauto.
      * exists pre, account, r0. repeat split; eauto using policy_no_http.
Qed.

(** The shape of every result of [pay]. *)
Lemma pay_result_shape res tr :
  run (client.pay W self amount token recipient timeout_seconds auto_approve) = (res, tr) ->
  exists result, res = Ok result /\
    (truthy (success result) = false -> exists m, error result = JStr m) /\
    (truthy (success result) = true ->
       error result = JNull /\
       exists payload requirements response data,
         In (HttpPost (client.settle_url self) payload requirements) tr /\
         requests_post W (client.settle_url self) payload requirements = Ok response /\
         status_code response = 200 /\
         resp_json response = Ok data /\
         get data "success" (JBool false) = Ok (success result) /\
         get data "transaction" JNull = Ok (tx_hash result)).
Proof.
  intros Hrun.
  assert (Hfailed : forall m p,
    (truthy (success (client.failed m p recipient amount token)) = false ->
       exists m', error (client.failed m p recipient amount token) = JStr m') /\
    (truthy (success (client.failed m p recipient amount token)) = true ->
       error (client.failed m p recipient amount token) = JNull /\
       exists payload requirements response data,
         In (HttpPost (client.settle_url self) payload requirements) tr /\
         requests_post W (client.settle_url self) payload requirements = Ok response /\
         status_code response = 200 /\
         resp_json response = Ok data /\
         get data "success" (JBool false) =
           Ok (success (client.failed m p recipient amount token)) /\
         get data "transaction" JNull =
           Ok (tx_hash (client.failed m p recipient amount token)))).
  { intros m p. split; cbn; [eauto|discriminate]. }
  destruct (pay_outcomes _ _ Hrun)
    as [(m & p & -> & _)|(account & w & payload & pre & r0 & _ & _ & _ & _ & Hex & ->)].
  - eexists; split; [reflexivity|]. apply Hfailed.
  - eexists; split; [reflexivity|].
    apply verify_and_settle_steps in Hex.
    destruct Hex as [[-> [[e ->]|[m ->]]]|(-> & Hv & Hs)]; try apply Hfailed.
    destruct Hs as [e He|response He Hst|response e He Hst
                   |response data result He Hst Hj Hsuc Htx Hok Hbad];
      try apply Hfailed.
    split; [exact Hbad|]. intros Ht. split; [auto|].
    do 4 eexists. split; [|repeat split; eassumption].
    apply in_or_app. right. right. now left.
Qed.

End Pay.
(** ** client.py: the allowance gate of [pay] *)

Lemma append_assoc (a b c : string) : (a ++ b) ++ c = a ++ b ++ c.
Proof. induction a as [|x a IH]; cbn; [reflexivity|]. now rewrite IH. Qed.

Lemma mentions_here (before part after : string) :
  mentions (before ++ part ++ after) part.
Proof. now exists before, after. Qed.

Lemma mentions_later (head message part : string) :
  mentions message part -> mentions (head ++ message) part.
Proof.
  intros (before & after & ->). exists (head ++ before), after.
  now rewrite append_assoc.
Qed.

(** The message of the insufficient-allowance failure shows both amounts. *)
Lemma insufficient_allowance_mentions (have need : float) (token : string) :
  mentions (client.insufficient_allowance have need token) (format_f 4 have) /\
  mentions (client.insufficient_allowance have need token) (format_f 4 need).
Proof.
  unfold client.insufficient_allowance. split.
  - apply mentions_here.
  - do 4 apply mentions_later. apply mentions_here.
Qed.

(** The allowance read of [pay], when the collaborators answer. *)
Lemma check_approval_reads W key token_address spender_address net min
    account tok owner spender a t :
  from_key W key = Ok account ->
  to_checksum_address W token_address = Ok tok ->
  to_checksum_address W account = Ok owner ->
  to_checksum_address W spender_address = Ok spender ->
  allowance_call W net tok owner spender = Ok a ->
  approval.check_approval W key token_address spender_address net min t
    = (Ok (a >=? match min with Some m => m | None => 0 end, a),
       (t ++ [RpcAllowance net tok owner spender])%list).
Proof.
  intros Hk Ht Ho Hs Ha. unfold approval.check_approval. unfold_effects.
  now rewrite Hk, Ht, Ho, Hs, Ha.
Qed.

Lemma lt_geb_false (a b : Z) : a < b -> (a >=? b) = false.
Proof. intros H. rewrite Z.geb_leb. now apply Z.leb_gt. Qed.

(** A debug print that goes through changes nothing. *)
Lemma when_print W self s t :
  prints_succeed W self -> when (client.debug self) (print W s) t = (Ok tt, t).
Proof.
  intros H. unfold when, print, pure.
  destruct (client.debug self) eqn:E; [|reflexivity]. now rewrite (H E).
Qed.

(** The two debug prints around the division of an amount in range. *)
Lemma when_print_amount W self (x : Z) (line : float -> string) (s : string) t :
  prints_succeed W self ->
  0 <= x < 2 ^ 1024 ->
  when (client.debug self)
    (bind (pure (int_truediv x (10 ^ 18)))
       (fun shown => bind (print W (line shown)) (fun _ => print W s))) t
    = (Ok tt, t).
Proof.
  intros H Hx. unfold when. destruct (client.debug self) eqn:E; [|reflexivity].
  unfold bind, pure, print. destruct (int_truediv_wei x Hx) as [f ->].
  now rewrite !(H E).
Qed.

(** The two debug prints after the payload is signed. *)
Lemma when_print_two W self (s1 s2 : string) t :
  prints_succeed W self ->
  when (client.debug self) (bind (print W s1) (fun _ => print W s2)) t = (Ok tt, t).
Proof.
  intros H. unfold when. destruct (client.debug self) eqn:E; [|reflexivity].
  unfold bind, pure, print. now rewrite !(H E).
Qed.

(** ** approval.py: [ensure_approval] *)

(** What [ensure_approval] returns, by the allowance it read. *)
Lemma ensure_approval_steps W key tok sp net auto t status t' :
  approval.ensure_approval W key tok sp net auto t = (Ok status, t') ->
  exists a x y z,
    allowance_call W net x y z = Ok a /\
    ((0 <= a /\ status = approval.mk_ApprovalStatus true a None /\
      t' = (t ++ [RpcAllowance net x y z])%list) \/
     (a < 0 /\ auto = false /\ status = approval.mk_ApprovalStatus false 0 None /\
      t' = (t ++ [RpcAllowance net x y z])%list) \/
     (a < 0 /\ auto = true /\
      exists h l,
        status = approval.mk_ApprovalStatus true (2 ^ 256 - 1) (Some h) /\
        approval.approve_token W key tok sp net None
          (t ++ [RpcAllowance net x y z])%list = (Ok h, t') /\
        t' = (t ++ RpcAllowance net x y z :: l)%list /\
        Forall (approval_event (10000 * 10 ^ 18)) l)).
Proof.
  unfold approval.ensure_approval. unfold bind at 1. intros H.
  destruct (approval.check_approval W key tok sp net None t) as [r t1] eqn:E.
  apply check_approval_steps in E.
  destruct E as [(e & -> & _)|(x & y & z & a & -> & -> & Ha)]; [discriminate|].
  exists a, x, y, z. split; [exact Ha|].
  destruct (a >=? 0) eqn:Hge.
  - left. unfold ret in H. injection H as <- <-.
    rewrite Z.geb_leb in Hge. apply Z.leb_le in Hge. auto.
  - apply geb_false in Hge. right. destruct auto; cbn [negb] in H.
    + right. split; [exact Hge|]. split; [reflexivity|].
      unfold bind, ret in H.
      destruct (approval.approve_token W key tok sp net None
                  (t ++ [RpcAllowance net x y z])%list) as [[h|e] t2] eqn:E;
        [|discriminate].
      injection H as <- <-. exists h.
      destruct (approve_token_steps _ _ _ _ _ _ _ _ _ E) as (l & -> & Hl).
      exists l. rewrite <- app_assoc. repeat split; auto.
    + left. unfold ret in H. injection H as <- <-. auto.
Qed.

(** ** client.py: the text of a failure *)




(* ===================================================================== *)
(** * The properties of the payment protocol *)
(* ===================================================================== *)

(** ** Authorization Signer *)

(** C1, as amended.  The authorization that [process_payment] signs is valid
    from 0 and until the issuance time plus the requested timeout, so that
    validBefore - validAfter is the issuance time plus the timeout (and
    validBefore minus the issuance time is the timeout); the payload carries
    both bounds as decimal strings that read back as these numbers. *)
Theorem process_payment_validity_window
    (W : World) (requirements : Requirements) (private_key : string)
    (payload : Payload) (tr : list event) :
  run (wallet.process_payment W requirements private_key) = (Ok payload, tr) ->
  exists domain authorization signature,
    sign_message W private_key domain authorization = Ok signature /\
    p_signature payload = "0x" ++ signature /\
    validAfter authorization = 0 /\
    validBefore authorization = time_now W + maxTimeoutSeconds requirements /\
    validBefore authorization - validAfter authorization
      = time_now W + maxTimeoutSeconds requirements /\
    validBefore authorization - time_now W = maxTimeoutSeconds requirements /\
    int_of_str (p_validAfter payload) = Ok (validAfter authorization) /\
    int_of_str (p_validBefore payload) = Ok (validBefore authorization).
Proof.
  intros H. apply process_payment_fields in H.
  destruct H as (d & a & s & Hs & Hsig & Hva & Hvb & _ & _ & Hpa & Hpb).
  exists d, a, s. rewrite Hpa, Hpb, !int_of_str_of_int.
  repeat split; auto; lia.
Qed.

Lemma process_payment_validity_window_witness :
  exists payload,
    run (wallet.process_payment Scenarios.funded Scenarios.requirements_3600 Scenarios.key)
      = (Ok payload, []) /\
    int_of_str (p_validAfter payload) = Ok 0 /\
    int_of_str (p_validBefore payload) = Ok (Scenarios.now + 3600).
Proof.
  eexists. split; [vm_compute; reflexivity|].
  destruct (process_payment_validity_window Scenarios.funded Scenarios.requirements_3600
              Scenarios.key _ [] eq_refl)
    as (d & a & s & _ & _ & Ha & Hb & _ & _ & Hc & Hd).
  rewrite Ha in Hc. rewrite Hb in Hd. split; [exact Hc|exact Hd].
Defined.

(** C1, as stated, fails: with a timeout of 3600 s requested at time
    1700000000 the window validBefore - validAfter is 1700003600 s. *)
Lemma validity_window_is_not_the_timeout :
  ~ (forall W requirements private_key payload tr va vb,
       1 <= maxTimeoutSeconds requirements ->
       run (wallet.process_payment W requirements private_key) = (Ok payload, tr) ->
       int_of_str (p_validAfter payload) = Ok va ->
       int_of_str (p_validBefore payload) = Ok vb ->
       vb - va = maxTimeoutSeconds requirements).
Proof.
  intros H.
  eassert (E : run (wallet.process_payment Scenarios.funded Scenarios.requirements_3600
                      Scenarios.key) = (Ok _, _)) by (vm_compute; reflexivity).
  assert (Ht : 1 <= maxTimeoutSeconds Scenarios.requirements_3600) by (cbn; lia).
  specialize (H _ _ _ _ _ 0 (Scenarios.now + 3600) Ht E).
  assert (Hgap : Scenarios.now + 3600 - 0 = maxTimeoutSeconds Scenarios.requirements_3600)
    by (apply H; vm_compute; reflexivity).
  vm_compute in Hgap. discriminate.
Qed.


(** ** Allowance Gate *)

(** C3, on the code.  Called without a minimum, [check_approval] compares the
    allowance with 0 by [>=]: it reports approved for every allowance the
    contract can return, an allowance of exactly 0 included. *)
Theorem check_approval_without_minimum
    (W : World) (private_key token_address spender_address : string)
    (network : NetworkType) (account token owner spender : string) (allowance : Z) :
  from_key W private_key = Ok account ->
  to_checksum_address W token_address = Ok token ->
  to_checksum_address W account = Ok owner ->
  to_checksum_address W spender_address = Ok spender ->
  allowance_call W network token owner spender = Ok allowance ->
  0 <= allowance ->
  run (approval.check_approval W private_key token_address spender_address network None)
    = (Ok (true, allowance), [RpcAllowance network token owner spender]).
Proof.
  intros Hk Ht Ho Hs Ha Hpos.
  unfold approval.check_approval. unfold_effects.
  rewrite Hk, Ht, Ho, Hs, Ha. cbn [app].
  replace (allowance >=? 0) with true; [reflexivity|].
  symmetry. rewrite Z.geb_leb. now apply Z.leb_le.
Qed.

Lemma check_approval_without_minimum_witness :
  run (approval.check_approval Scenarios.unfunded Scenarios.key Scenarios.usdt
         (client.RELAYERS mainnet) mainnet None)
    = (Ok (true, 0),
       [RpcAllowance mainnet Scenarios.usdt Scenarios.payer_address
          (client.RELAYERS mainnet)]).
Proof.
  apply (check_approval_without_minimum Scenarios.unfunded Scenarios.key Scenarios.usdt
           (client.RELAYERS mainnet) mainnet Scenarios.payer_address);
    reflexivity || lia.
Defined.

(** With an allowance of 0, [setup] reports the token approved and sends no
    transaction, with auto-approve as without. *)
Lemma setup_on_zero_allowance (auto_approve : bool) :
  run (client.setup Scenarios.unfunded Scenarios.client_default "USDT" auto_approve)
    = (Ok (approval.mk_ApprovalStatus true 0 None),
       [RpcAllowance mainnet Scenarios.usdt Scenarios.payer_address
          (client.RELAYERS mainnet)]).
Proof. destruct auto_approve; vm_compute; reflexivity. Qed.

(** ** Configuration errors *)

(** C10.  Without the PRIVATE_KEY credential, or for a token that is not
    configured on the active network, [B402.check_approval] and [B402.setup]
    raise a ValueError and call nothing, where [B402.pay] returns a failure
    result. *)
Theorem setup_and_check_approval_raise
    (W : World) (self : client.B402) (token : string) (auto_approve : bool) :
  client.missing (environ_PRIVATE_KEY W) = true \/
  client.missing (client.table_get token (client.TOKENS (client.network self))) = true ->
  exists m,
    (m = "PRIVATE_KEY environment variable not set" \/
     m = "Token " ++ token ++ " not supported on "
           ++ client.network_name (client.network self)) /\
    run (client.check_approval W self token) = (Raise (ValueError m), []) /\
    run (client.setup W self token auto_approve) = (Raise (ValueError m), []) /\
    forall amount recipient timeout_seconds auto_approve',
    exists m' payer,
      run (client.pay W self amount token recipient timeout_seconds auto_approve')
        = (Ok (client.failed m' payer recipient amount token), []).
Proof.
  intros H. unfold client.check_approval, client.setup, client.pay, client.pay_try.
  unfold_effects.
  destruct (client.missing (environ_PRIVATE_KEY W)) eqn:Hkey.
  - eexists. split; [left; reflexivity|]. repeat split. intros. eauto.
  - destruct H as [H|H]; [discriminate|]. rewrite H.
    eexists. split; [right; reflexivity|]. repeat split. intros.
    destruct (from_key W (client.the (environ_PRIVATE_KEY W))); eauto.
Qed.

Lemma setup_and_check_approval_raise_witness :
  run (client.check_approval Scenarios.no_credential Scenarios.client_default "USDT")
    = (Raise (ValueError "PRIVATE_KEY environment variable not set"), []) /\
  run (client.setup Scenarios.no_credential Scenarios.client_default "USDT" true)
    = (Raise (ValueError "PRIVATE_KEY environment variable not set"), []).
Proof.
  destruct (setup_and_check_approval_raise Scenarios.no_credential
              Scenarios.client_default "USDT" true (or_introl eq_refl))
    as (m & [->| ->] & Hc & Hs & _).
  - split; [exact Hc|exact Hs].
  - vm_compute in Hc. discriminate.
Defined.

(** ** Amount conversion *)

(** The value a payload carries is the decimal string of the integer that
    the requirements carry, whatever that integer is. *)
Lemma payload_value_of_requirements W self recipient timeout_seconds token_address
    amount_wei key t payload t' :
  wallet.process_payment W
    (client.build_requirements self recipient timeout_seconds token_address amount_wei)
    key t = (Ok payload, t') ->
  p_value payload = str_of_int amount_wei.
Proof.
  intros H. apply process_payment_fields in H.
  destruct H as (d & a & s & _ & _ & _ & _ & Hv & Hp & _).
  cbn [client.build_requirements maxAmountRequired] in Hv.
  rewrite int_of_str_of_int in Hv. injection Hv as Hv. rewrite Hv. exact Hp.
Qed.

(** C7, on the code.  The amount "1.1" is converted through binary64: the
    authorization value is 1100000000000000128 base units, where
    floor(1.1 * 10^18) is 1100000000000000000, and reading the value back at
    18 decimals gives "1.100000000000000128"; the amount "0.01" of the
    specification's example does convert to 10000000000000000 and back. *)
Theorem amount_to_wei_rounds_in_binary :
  client.amount_to_wei "1.1" = Ok 1100000000000000128 /\
  Spec.base_units "1.1" = Some 1100000000000000000 /\
  Spec.decimal_of_base_units 1100000000000000128 = "1.100000000000000128" /\
  map posted_value (snd (Scenarios.pay_in Scenarios.funded "1.1" true))
    = [None; Some "1100000000000000128"; Some "1100000000000000128"] /\
  client.amount_to_wei "0.01" = Ok 10000000000000000 /\
  Spec.base_units "0.01" = Some 10000000000000000 /\
  Spec.decimal_of_base_units 10000000000000000 = "0.01".
Proof. repeat split; vm_compute; reflexivity. Qed.


(** ** Payment Orchestrator: results *)

Section PayResults.

Variables (W : World) (self : client.B402).
Variables (amount token recipient : string) (timeout_seconds : Z) (auto_approve : bool).


(** C2, as amended.  In a result of [pay], a true success comes without an
    error and with, as tx_hash, the "transaction" entry of the facilitator's
    answer to settle ([None] when the answer has none); a false success
    comes with an error message. *)
Theorem payment_result_shape (result : PaymentResult) (tr : list event) :
  run (client.pay W self amount token recipient timeout_seconds auto_approve)
    = (Ok result, tr) ->
  (truthy (success result) = true ->
     error result = JNull /\
     exists payload requirements response data,
       In (HttpPost (client.settle_url self) payload requirements) tr /\
       requests_post W (client.settle_url self) payload requirements = Ok response /\
       status_code response = 200 /\
       resp_json response = Ok data /\
       get data "success" (JBool false) = Ok (success result) /\
       get data "transaction" JNull = Ok (tx_hash result)) /\
  (truthy (success result) = false -> exists m, error result = JStr m).
Proof.
  intros E.
  destruct (pay_result_shape _ _ _ _ _ _ _ _ _ E) as (result' & [= <-] & Hbad & Hok).
  split; assumption.
Qed.

(** C6.  A settle request in a run of [pay] is the last call of the run and
    comes right after the verify request for the same payload and
    requirements, which was answered with HTTP 200 and a truthy isValid (for
    a boolean isValid: true); no other request to the facilitator precedes
    them. *)
Theorem settle_only_after_valid_verify
    (res : result PaymentResult) (tr : list event)
    (payload : Payload) (requirements : Requirements) :
  run (client.pay W self amount token recipient timeout_seconds auto_approve) = (res, tr) ->
  In (HttpPost (client.settle_url self) payload requirements) tr ->
  exists pre response data v,
    tr = (pre ++ [HttpPost (client.verify_url self) payload requirements;
                  HttpPost (client.settle_url self) payload requirements])%list /\
    (forall ev, In ev pre -> is_http ev = false) /\
    requests_post W (client.verify_url self) payload requirements = Ok response /\
    status_code response = 200 /\
    resp_json response = Ok data /\
    get data "isValid" JNull = Ok v /\
    truthy v = true /\
    (forall b, v = JBool b -> b = true).
Proof.
  intros E Hin.
  destruct (settle_post_context _ _ _ _ _ _ _ _ _ _ _ E Hin)
    as (pre & account & r0 & Htr & Hpre & (response & data & v & Hv1 & Hv2 & Hv3 & Hv4 & Hv5) & _).
  exists pre, response, data, v. repeat split; auto.
  intros b ->. exact Hv5.
Qed.

(** C5, as amended.  When the settle request fails in transport, [pay]
    reports an ordinary failure and nothing else: for a network error,
    success=False and tx_hash=None with the text of the exception as error
    and an empty payer; for a status other than 200, success=False and
    tx_hash=None with the error "Settle request failed: HTTP <status> -
    <body>".  It is never reported as a success, and settle is requested
    once only, as the last call of the run. *)
Theorem settle_transport_failure_is_reported_as_failure
    (res : result PaymentResult) (tr : list event)
    (payload : Payload) (requirements : Requirements) :
  run (client.pay W self amount token recipient timeout_seconds auto_approve) = (res, tr) ->
  In (HttpPost (client.settle_url self) payload requirements) tr ->
  (forall e,
     requests_post W (client.settle_url self) payload requirements = Raise e ->
     res = Ok (mk_PaymentResult (JBool false) JNull (JStr (exn_str e))
                 "" recipient amount token)) /\
  (forall response,
     requests_post W (client.settle_url self) payload requirements = Ok response ->
     status_code response <> 200 ->
     exists account,
       res = Ok (mk_PaymentResult (JBool false) JNull
                   (JStr ("Settle request failed: HTTP "
                          ++ str_of_int (status_code response)
                          ++ " - " ++ resp_text response))
                   account recipient amount token)) /\
  (exists pre,
     tr = (pre ++ [HttpPost (client.verify_url self) payload requirements;
                   HttpPost (client.settle_url self) payload requirements])%list /\
     forall ev, In ev pre -> is_http ev = false).
Proof.
  intros E Hin.
  destruct (settle_post_context _ _ _ _ _ _ _ _ _ _ _ E Hin)
    as (pre & account & r0 & Htr & Hpre & _ & Hs & ->).
  split; [|split].
  - intros e He.
    destruct Hs as [e0 H0|r1 H0 H1|r1 e0 H0 H1|r1 data result H0 H1 H2 H3 H4 H5 H6];
      rewrite He in H0; try discriminate.
    injection H0 as <-. reflexivity.
  - intros response He Hst. exists account.
    destruct Hs as [e0 H0|r1 H0 H1|r1 e0 H0 H1|r1 data result H0 H1 H2 H3 H4 H5 H6];
      rewrite He in H0; try discriminate; injection H0 as <-;
      first [reflexivity | congruence].
  - exists pre. split; assumption.
Qed.

End PayResults.

(** *** Runs that exercise the theorems above *)

Lemma payment_result_shape_witness :
  exists result tr,
    Scenarios.pay_in Scenarios.funded "0.01" true = (Ok result, tr) /\
    success result = JBool true /\
    error result = JNull /\
    tx_hash result = JStr "0x1234".
Proof.
  do 2 eexists. split; [vm_compute; reflexivity|].
  split; [reflexivity|].
  edestruct (payment_result_shape Scenarios.funded Scenarios.client_default
               "0.01" "USDT" Scenarios.recipient_address 3600 true) as [Hok _].
  - vm_compute. reflexivity.
  - split; [apply Hok; reflexivity|reflexivity].
Defined.

(** C2, as stated, fails: a facilitator that answers settle with
    [{"success": true}] and no transaction yields success=True together
    with tx_hash=None. *)
Lemma success_without_transaction :
  ~ (forall W self amount token recipient timeout_seconds auto_approve result tr,
       run (client.pay W self amount token recipient timeout_seconds auto_approve)
         = (Ok result, tr) ->
       (success result = JBool true -> tx_hash result <> JNull /\ error result = JNull) /\
       (success result = JBool false -> error result <> JNull)).
Proof.
  intros H.
  eassert (E : run (client.pay Scenarios.unconfirmed_world Scenarios.client_default
                      "1" "USDT" Scenarios.recipient_address 3600 false) = (Ok _, _))
    by (vm_compute; reflexivity).
  destruct (H _ _ _ _ _ _ _ _ _ E) as [Hok _].
  destruct (Hok eq_refl) as [Htx _]. apply Htx. reflexivity.
Qed.

Lemma settle_only_after_valid_verify_witness :
  exists res tr payload requirements pre,
    Scenarios.pay_in Scenarios.funded "0.01" true = (res, tr) /\
    In (HttpPost (client.settle_url Scenarios.client_default) payload requirements) tr /\
    tr = (pre ++ [HttpPost (client.verify_url Scenarios.client_default) payload requirements;
                  HttpPost (client.settle_url Scenarios.client_default) payload requirements])%list.
Proof.
  destruct (Scenarios.pay_in Scenarios.funded "0.01" true) as [res tr] eqn:E.
  pose proof E as E'. vm_compute in E'. injection E' as <- <-.
  lazymatch type of E with
  | _ = (_, [_; _; HttpPost _ ?p ?r]) =>
      assert (Hin : In (HttpPost (client.settle_url Scenarios.client_default) p r)
                      (snd (Scenarios.pay_in Scenarios.funded "0.01" true)))
        by (rewrite E; right; right; left; reflexivity);
      rewrite E in Hin; cbn [snd] in Hin;
      destruct (settle_only_after_valid_verify _ _ _ _ _ _ _ _ _ _ _ E Hin)
        as (pre & response & data & v & Htr & _);
      do 2 eexists; exists p, r, pre
  end.
  split; [reflexivity|]. split; [exact Hin|exact Htr].
Defined.

Lemma settle_transport_failure_is_reported_as_failure_witness :
  exists res tr payload requirements,
    Scenarios.pay_in Scenarios.settle_lost_world "0.01" true = (res, tr) /\
    In (HttpPost (client.settle_url Scenarios.client_default) payload requirements) tr /\
    res = Ok (mk_PaymentResult (JBool false) JNull (JStr "Connection aborted.")
                "" Scenarios.recipient_address "0.01" "USDT").
Proof.
  destruct (Scenarios.pay_in Scenarios.settle_lost_world "0.01" true) as [res tr] eqn:E.
  pose proof E as E'. vm_compute in E'. injection E' as <- <-.
  lazymatch type of E with
  | _ = (_, [_; _; HttpPost _ ?p ?r]) =>
      assert (Hin : In (HttpPost (client.settle_url Scenarios.client_default) p r)
                      (snd (Scenarios.pay_in Scenarios.settle_lost_world "0.01" true)))
        by (rewrite E; right; right; left; reflexivity);
      rewrite E in Hin; cbn [snd] in Hin;
      destruct (settle_transport_failure_is_reported_as_failure _ _ _ _ _ _ _ _ _ _ _ E Hin)
        as (Hlost & _ & _);
      do 2 eexists; exists p, r
  end.
  split; [reflexivity|]. split; [exact Hin|].
  apply (Hlost Scenarios.connection_lost). reflexivity.
Defined.

(** C5, as stated, fails: a connection lost on the settle call, where the
    relay may have been committed, and a connection lost on the verify call,
    where settle is never requested, yield the same PaymentResult. *)
Lemma settle_failure_is_not_told_apart :
  fst (Scenarios.pay_in Scenarios.settle_lost_world "0.01" true)
    = fst (Scenarios.pay_in Scenarios.verify_lost_world "0.01" true) /\
  existsb is_http_to_settle (snd (Scenarios.pay_in Scenarios.settle_lost_world "0.01" true))
    = true /\
  existsb is_http_to_settle (snd (Scenarios.pay_in Scenarios.verify_lost_world "0.01" true))
    = false /\
  fst (Scenarios.pay_in Scenarios.settle_lost_world "0.01" true)
    = Ok (mk_PaymentResult (JBool false) JNull (JStr "Connection aborted.")
            "" Scenarios.recipient_address "0.01" "USDT").
Proof. repeat split; vm_compute; reflexivity. Qed.

(** ** Allowance Gate: insufficient allowance *)

(** C8.  When the allowance read from the chain is below the amount in base
    units and auto-approve is off, [pay] returns a result with success=False,
    no tx_hash, the payer's address and the error "Insufficient allowance.
    Have: <current> <token>, Need: <required> <token>. Run: ...", in which
    both amounts stand in token units with four decimals (so that two
    amounts below 0.00005 token both read 0.0000); the one call it made is
    the allowance read, and no transaction is built or sent. *)
Theorem insufficient_allowance_is_reported
    (W : World) (self : client.B402) (amount token recipient : string)
    (timeout_seconds : Z) (account tok owner spender : string) (w a : Z) :
  client.missing (environ_PRIVATE_KEY W) = false ->
  from_key W (client.the (environ_PRIVATE_KEY W)) = Ok account ->
  client.missing (client.table_get token (client.TOKENS (client.network self))) = false ->
  client.amount_to_wei amount = Ok w ->
  to_checksum_address W
    (client.the (client.table_get token (client.TOKENS (client.network self)))) = Ok tok ->
  to_checksum_address W account = Ok owner ->
  to_checksum_address W (client.RELAYERS (client.network self)) = Ok spender ->
  allowance_call W (client.network self) tok owner spender = Ok a ->
  0 <= a < w ->
  exists have need result message,
    int_truediv a (10 ^ 18) = Ok have /\
    int_truediv w (10 ^ 18) = Ok need /\
    run (client.pay W self amount token recipient timeout_seconds false)
      = (Ok result, [RpcAllowance (client.network self) tok owner spender]) /\
    success result = JBool false /\
    tx_hash result = JNull /\
    error result = JStr message /\
    message = "Insufficient allowance. Have: " ++ format_f 4 have ++ " " ++ token
              ++ ", Need: " ++ format_f 4 need ++ " " ++ token
              ++ ". Run: b402.setup('" ++ token ++ "') or pay(..., auto_approve=True)" /\
    mentions message (format_f 4 have) /\
    mentions message (format_f 4 need) /\
    payer result = account /\
    types.recipient result = recipient /\
    types.amount result = amount /\
    types.token result = token.
Proof.
  intros Hkey Hfrom Htok Hw Hct Hco Hcs Ha Hlt.
  pose proof (amount_to_wei_bound _ _ Hw) as Hb.
  destruct (int_truediv_wei a ltac:(lia)) as [have Hhave].
  destruct (int_truediv_wei w ltac:(lia)) as [need Hneed].
  exists have, need. do 2 eexists.
  split; [exact Hhave|]. split; [exact Hneed|].
  split.
  { unfold client.pay. rewrite Hkey. unfold run, try_except, client.pay_try.
    unfold bind at 1. unfold pure at 1. rewrite Hfrom, Htok.
    unfold bind at 1. unfold pure at 1. rewrite Hw.
    unfold bind at 1.
    rewrite (check_approval_reads _ _ _ _ _ _ _ _ _ _ _ _ Hfrom Hct Hco Hcs Ha).
    rewrite (lt_geb_false a w) by lia. cbn [negb app].
    unfold bind, pure, ret. rewrite Hhave, Hneed. reflexivity. }
  cbn [client.failed success tx_hash error payer types.recipient types.amount types.token].
  repeat (split; [reflexivity|]).
  split; [apply insufficient_allowance_mentions|].
  split; [apply insufficient_allowance_mentions|].
  repeat split.
Qed.

Lemma insufficient_allowance_is_reported_witness :
  exists result,
    Scenarios.pay_in Scenarios.underfunded "0.01" false
      = (Ok result,
         [RpcAllowance mainnet Scenarios.usdt Scenarios.payer_address
            (client.RELAYERS mainnet)]) /\
    success result = JBool false /\
    error result
      = JStr ("Insufficient allowance. Have: 0.0000 USDT, Need: 0.0100 USDT. "
              ++ "Run: b402.setup('USDT') or pay(..., auto_approve=True)").
Proof.
  assert (Hw : client.amount_to_wei "0.01" = Ok (10 ^ 16)) by (vm_compute; reflexivity).
  assert (Hlt : 0 <= 5 < 10 ^ 16) by lia.
  destruct (insufficient_allowance_is_reported Scenarios.underfunded
              Scenarios.client_default "0.01" "USDT" Scenarios.recipient_address 3600
              Scenarios.payer_address Scenarios.usdt Scenarios.payer_address
              (client.RELAYERS mainnet) (10 ^ 16) 5
              eq_refl eq_refl eq_refl Hw eq_refl eq_refl eq_refl eq_refl Hlt)
    as (have & need & result & message & Hh & Hn & Hrun & Hs & _ & He & Hm & _).
  vm_compute in Hh, Hn. injection Hh as <-. injection Hn as <-.
  exists result. split; [exact Hrun|]. split; [exact Hs|].
  rewrite He, Hm. reflexivity.
Defined.

(** ** Allowance Gate: auto-approval *)

(** C4, on the code.  When the allowance read is below the amount and
    auto-approve is on, [pay] calls [approve_token] right after the read, for
    max(amount_wei, 10000 * 10^18), and every approve transaction of the run
    is built for that amount.  If the approval raises, [pay] returns
    success=False with "Auto-approval failed: ..."; if it returns, [pay] goes
    on to the payment and its result is that of the payment alone: neither
    the approval's transaction id nor an allowance is returned. *)
Theorem auto_approval_amount
    (W : World) (self : client.B402) (amount token recipient : string)
    (timeout_seconds : Z) (account tok owner spender : string) (w a : Z) :
  client.missing (environ_PRIVATE_KEY W) = false ->
  from_key W (client.the (environ_PRIVATE_KEY W)) = Ok account ->
  client.missing (client.table_get token (client.TOKENS (client.network self))) = false ->
  client.amount_to_wei amount = Ok w ->
  to_checksum_address W
    (client.the (client.table_get token (client.TOKENS (client.network self)))) = Ok tok ->
  to_checksum_address W account = Ok owner ->
  to_checksum_address W (client.RELAYERS (client.network self)) = Ok spender ->
  allowance_call W (client.network self) tok owner spender = Ok a ->
  0 <= a < w ->
  prints_succeed W self ->
  (exists outcome tr l,
     approval.approve_token W (client.the (environ_PRIVATE_KEY W))
       (client.the (client.table_get token (client.TOKENS (client.network self))))
       (client.RELAYERS (client.network self)) (client.network self)
       (Some (Z.max w client.approval_cap))
       [RpcAllowance (client.network self) tok owner spender] = (outcome, tr) /\
     tr = (RpcAllowance (client.network self) tok owner spender :: l)%list /\
     Forall (approval_event (Z.max w client.approval_cap)) l /\
     run (client.pay W self amount token recipient timeout_seconds true)
       = match outcome with
         | Raise e =>
             (Ok (mk_PaymentResult (JBool false) JNull
                    (JStr ("Auto-approval failed: " ++ exn_str e
                           ++ ". Please run: b402.setup('" ++ token ++ "')"))
                    account recipient amount token), tr)
         | Ok _ =>
             try_except
               (client.proceed W self amount token recipient timeout_seconds
                  (client.the (environ_PRIVATE_KEY W)) account
                  (client.the (client.table_get token
                                 (client.TOKENS (client.network self)))) w)
               (fun e => ret (mk_PaymentResult (JBool false) JNull (JStr (exn_str e))
                                "" recipient amount token))
               tr
         end) /\
  (forall res tr ev x,
     run (client.pay W self amount token recipient timeout_seconds true) = (res, tr) ->
     In ev tr -> approve_amount ev = Some x ->
     x = Z.max w client.approval_cap /\ 10000 * 10 ^ 18 <= x < 2 ^ 1024).
Proof.
  intros Hkey Hfrom Htok Hw Hct Hco Hcs Ha Hlt Hprint.
  pose proof (amount_to_wei_bound _ _ Hw) as Hb.
  split.
  - destruct (approval.approve_token W (client.the (environ_PRIVATE_KEY W))
       (client.the (client.table_get token (client.TOKENS (client.network self))))
       (client.RELAYERS (client.network self)) (client.network self)
       (Some (Z.max w client.approval_cap))
       [RpcAllowance (client.network self) tok owner spender]) as [outcome tr] eqn:E.
    destruct (approve_token_steps _ _ _ _ _ _ _ _ _ E) as (l & Htr & Hl).
    exists outcome, tr, l. split; [reflexivity|]. split; [exact Htr|].
    split; [exact Hl|].
    unfold client.pay. rewrite Hkey. unfold run, try_except at 1, client.pay_try.
    unfold bind at 1. unfold pure at 1. rewrite Hfrom, Htok.
    unfold bind at 1. unfold pure at 1. rewrite Hw.
    unfold bind at 1.
    rewrite (check_approval_reads _ _ _ _ _ _ _ _ _ _ _ _ Hfrom Hct Hco Hcs Ha).
    rewrite (lt_geb_false a w) by lia. cbn [negb app].
    unfold bind at 1.
    rewrite (when_print_amount W self a
               (fun shown => "[DEBUG] Insufficient allowance (" ++ format_f 4 shown ++ " "
                             ++ token ++ ")")) by (assumption || lia).
    unfold bind at 1. unfold attempt. unfold bind at 1. rewrite E.
    destruct outcome as [h|e]; [|reflexivity].
    unfold bind at 1.
    rewrite (when_print_amount W self (Z.max w client.approval_cap)
               (fun shown => "[DEBUG] Approved " ++ format_f 0 shown ++ " " ++ token ++ "!"))
      by (assumption ||
          (unfold client.approval_cap; change (2 ^ 1024) with (2 ^ 1000 * 2 ^ 24) in *; lia)).
    unfold ret at 1. unfold try_except. reflexivity.
  - intros res tr ev x Hrun Hin Hx.
    assert (Hpol : approval_policy W self amount true ev).
    { destruct (pay_outcomes _ _ _ _ _ _ _ _ _ Hrun)
        as [(m & p & _ & Hpol)|(acc & w' & payload & pre & r0 & _ & _ & _ & Hpol & Hex & _)].
      - rewrite Forall_forall in Hpol. now apply Hpol.
      - apply verify_and_settle_steps in Hex.
        destruct Hex as [[-> _]|(-> & _)]; apply in_app_or in Hin;
          destruct Hin as [Hin|Hin];
          try (rewrite Forall_forall in Hpol; now apply Hpol).
        + destruct Hin as [<-|[]]. discriminate.
        + destruct Hin as [<-|[<-|[]]]; discriminate. }
    destruct Hpol as [_ Hpol]. destruct (Hpol x Hx) as (_ & w' & _ & _ & _ & _ & Hw' & _ & _ & ->).
    rewrite Hw in Hw'. injection Hw' as <-. split; [reflexivity|].
    unfold client.approval_cap. change (2 ^ 1024) with (2 ^ 1000 * 2 ^ 24) in *. lia.
Qed.

(** On a wallet with no allowance and auto-approve on: [pay] sends an
    approval for 10000 * 10^18, whose transaction id is 0xa9f0, and returns
    the result of the payment, whose tx_hash is the settlement's 0x1234. *)
Lemma auto_approval_amount_witness :
  exists tr result tr',
    approval.approve_token Scenarios.unfunded Scenarios.key Scenarios.usdt
      (client.RELAYERS mainnet) mainnet (Some (10000 * 10 ^ 18))
      [RpcAllowance mainnet Scenarios.usdt Scenarios.payer_address
         (client.RELAYERS mainnet)] = (Ok "0xa9f0", tr) /\
    map approve_amount tr = [None; None; None; Some (10000 * 10 ^ 18); None; None] /\
    Scenarios.pay_in Scenarios.unfunded "0.01" true = (Ok result, tr') /\
    success result = JBool true /\
    tx_hash result = JStr "0x1234".
Proof.
  assert (Hw : client.amount_to_wei "0.01" = Ok (10 ^ 16)) by (vm_compute; reflexivity).
  assert (Hlt : 0 <= 0 < 10 ^ 16) by lia.
  assert (Hprint : prints_succeed Scenarios.unfunded Scenarios.client_default)
    by (intros _ s; reflexivity).
  destruct (auto_approval_amount Scenarios.unfunded Scenarios.client_default
              "0.01" "USDT" Scenarios.recipient_address 3600
              Scenarios.payer_address Scenarios.usdt Scenarios.payer_address
              (client.RELAYERS mainnet) (10 ^ 16) 0
              eq_refl eq_refl eq_refl Hw eq_refl eq_refl eq_refl eq_refl Hlt Hprint)
    as ((outcome & tr & l & E & Htr & Hl & Hrun) & _).
  vm_compute in E. injection E as <- <-.
  cbv beta iota in Hrun.
  eassert (Hpay : try_except
                    (client.proceed Scenarios.unfunded Scenarios.client_default "0.01" "USDT"
                       Scenarios.recipient_address 3600 Scenarios.key
                       Scenarios.payer_address Scenarios.usdt (10 ^ 16))
                    (fun e => ret (mk_PaymentResult (JBool false) JNull (JStr (exn_str e))
                                     "" Scenarios.recipient_address "0.01" "USDT"))
                    _ = (Ok _, _)) by (vm_compute; reflexivity).
  do 3 eexists. split; [vm_compute; reflexivity|]. split; [reflexivity|].
  split; [etransitivity; [exact Hrun|exact Hpay]|]. split; reflexivity.
Defined.

(** The same run, call by call. *)
Lemma approval_is_not_what_is_returned :
  exists result tr,
    Scenarios.pay_in Scenarios.unfunded "0.01" true = (Ok result, tr) /\
    map approve_amount tr
      = [None; None; None; Some (10000 * 10 ^ 18); None; None; None; None] /\
    In (RpcWaitReceipt mainnet "a9f0") tr /\
    tx_hash result = JStr "0x1234".
Proof.
  do 2 eexists. split; [vm_compute; reflexivity|].
  split; [reflexivity|]. split; [|reflexivity].
  do 5 right. left. reflexivity.
Qed.


(* ===================================================================== *)
(** * Further properties of the package *)
(* ===================================================================== *)

(** ** approval.py: [approve_token] *)

(** X1.  A call of [approve_token] that returns made five calls, in this order:
    the account's transaction count, the gas price, the build of
    approve(spender, amount) with gas 100000 from the key's account (amount
    10000 * 10^18 when none is given), the send of the signed transaction
    and the wait for its receipt; it returns "0x" and the id of the
    transaction it sent. *)
Theorem approve_token_success
    (W : World) (private_key token_address spender_address : string)
    (network : NetworkType) (amount : option Z) (h : string) (tr : list event) :
  run (approval.approve_token W private_key token_address spender_address network amount)
    = (Ok h, tr) ->
  exists account token spender nonce gasPrice tx signed tx_hash,
    from_key W private_key = Ok account /\
    to_checksum_address W token_address = Ok token /\
    to_checksum_address W spender_address = Ok spender /\
    get_transaction_count W network account = Ok nonce /\
    gas_price W network = Ok gasPrice /\
    build_transaction W network
      (mk_Transaction token spender
         (match amount with Some a => a | None => 10000 * 10 ^ 18 end)
         account nonce 100000 gasPrice) = Ok tx /\
    sign_transaction W private_key tx = Ok signed /\
    send_raw_transaction W network signed = Ok tx_hash /\
    wait_for_transaction_receipt W network tx_hash = Ok tt /\
    h = "0x" ++ tx_hash /\
    tr = [RpcTransactionCount network account;
          RpcGasPrice network;
          RpcBuildTransaction network
            (mk_Transaction token spender
               (match amount with Some a => a | None => 10000 * 10 ^ 18 end)
               account nonce 100000 gasPrice);
          RpcSendRawTransaction network signed;
          RpcWaitReceipt network tx_hash].
Proof.
  unfold approval.approve_token. unfold_effects. intros H.
  set (effective := match amount with Some a => a | None => 10000 * 10 ^ 18 end) in *.
  clearbody effective.
  steps H; try discriminate. injection H as <- <-.
  match goal with u : unit |- _ => destruct u end.
  do 8 eexists. repeat (split; [first [eassumption|reflexivity]|]). reflexivity.
Qed.

Lemma approve_token_success_witness :
  exists h tr,
    run (approval.approve_token Scenarios.unfunded Scenarios.key Scenarios.usdt
           (client.RELAYERS mainnet) mainnet None) = (Ok h, tr) /\
    h = "0xa9f0" /\
    tr = [RpcTransactionCount mainnet Scenarios.payer_address;
          RpcGasPrice mainnet;
          RpcBuildTransaction mainnet
            (mk_Transaction Scenarios.usdt (client.RELAYERS mainnet) (10000 * 10 ^ 18)
               Scenarios.payer_address 7 100000 3000000000);
          RpcSendRawTransaction mainnet "02f86c";
          RpcWaitReceipt mainnet "a9f0"].
Proof.
  destruct (run (approval.approve_token Scenarios.unfunded Scenarios.key Scenarios.usdt
                   (client.RELAYERS mainnet) mainnet None)) as [[h|e] tr] eqn:E;
    [|vm_compute in E; discriminate].
  destruct (approve_token_success _ _ _ _ _ _ _ _ E)
    as (account & token & spender & nonce & gasPrice & tx & signed & tx_hash
        & Hk & Ht & Hs & Hn & Hg & Hb & Hsg & Hsend & Hw & Hh & Htr).
  injection Hk as <-. injection Ht as <-. injection Hs as <-.
  injection Hn as <-. injection Hg as <-. injection Hb as <-.
  injection Hsg as <-. injection Hsend as <-.
  exists h, tr. split; [reflexivity|]. split; [exact Hh|exact Htr].
Defined.

(** X2.  When [approve_token] raises, either no transaction was handed to the
    node, or the send itself raised, or the transaction was sent and it is
    the wait for its receipt that raised: an exception does not tell that
    nothing was sent. *)
Theorem approve_token_failure
    (W : World) (private_key token_address spender_address : string)
    (network : NetworkType) (amount : option Z) (e : exn) (tr : list event) :
  run (approval.approve_token W private_key token_address spender_address network amount)
    = (Raise e, tr) ->
  existsb sends_transaction tr = false \/
  (exists pre signed,
     tr = (pre ++ [RpcSendRawTransaction network signed])%list /\
     existsb sends_transaction pre = false /\
     send_raw_transaction W network signed = Raise e) \/
  (exists pre signed tx_hash,
     tr = (pre ++ [RpcSendRawTransaction network signed;
                   RpcWaitReceipt network tx_hash])%list /\
     existsb sends_transaction pre = false /\
     send_raw_transaction W network signed = Ok tx_hash /\
     wait_for_transaction_receipt W network tx_hash = Raise e).
Proof.
  unfold approval.approve_token. unfold_effects. intros H.
  set (effective := match amount with Some a => a | None => 10000 * 10 ^ 18 end) in *.
  clearbody effective.
  steps H; try discriminate; injection H as <- <-; cbn [app].
  all: first
    [ left; reflexivity
    | right; left; eexists [_; _; _], _; split; [reflexivity|]; split;
      [reflexivity|eassumption]
    | right; right; eexists [_; _; _], _, _; split; [reflexivity|]; split;
      [reflexivity|]; split; eassumption ].
Qed.

Lemma approve_token_failure_witness :
  exists tr pre signed,
    run (approval.approve_token Scenarios.receipt_lost_world Scenarios.key Scenarios.usdt
           (client.RELAYERS mainnet) mainnet None)
      = (Raise Scenarios.receipt_timeout, tr) /\
    tr = (pre ++ [RpcSendRawTransaction mainnet signed; RpcWaitReceipt mainnet "a9f0"])%list /\
    send_raw_transaction Scenarios.receipt_lost_world mainnet signed = Ok "a9f0".
Proof.
  eassert (E : run (approval.approve_token Scenarios.receipt_lost_world Scenarios.key
                      Scenarios.usdt (client.RELAYERS mainnet) mainnet None)
                 = (Raise _, _)) by (vm_compute; reflexivity).
  destruct (approve_token_failure _ _ _ _ _ _ _ _ E)
    as [Hnone|[(pre & signed & Htr & _ & Hsend)|(pre & signed & tx_hash & Htr & _ & Hsend & _)]].
  - vm_compute in Hnone. discriminate.
  - vm_compute in Hsend. discriminate.
  - eexists. exists pre, signed. split; [exact E|].
    assert (Hh : tx_hash = "a9f0") by (vm_compute in Hsend; congruence).
    subst tx_hash. split; [exact Htr|exact Hsend].
Defined.

(** ** The allowance gate: what is read and what is sent *)

Lemma check_approval_trace W key tok sp net min t r t' :
  approval.check_approval W key tok sp net min t = (r, t') ->
  t' = t \/ exists a b c, t' = (t ++ [RpcAllowance net a b c])%list.
Proof.
  unfold approval.check_approval. unfold_effects. intros H.
  steps H; pair_inv H; first [left; reflexivity | right; do 3 eexists; reflexivity].
Qed.

Lemma only_reads_nil : Forall (fun ev => is_allowance_read ev = true) [].
Proof. constructor. Qed.

Lemma only_reads_one net a b c :
  Forall (fun ev => is_allowance_read ev = true) [RpcAllowance net a b c].
Proof. repeat constructor. Qed.

(** X3.  [B402.check_approval] and [B402.setup] with auto-approve off make at most
    one call outside the process, and it is a read of the allowance: they
    build and send no transaction, whatever the collaborators answer. *)
Theorem check_approval_and_setup_only_read
    (W : World) (self : client.B402) (token : string) :
  (Forall (fun ev => is_allowance_read ev = true)
     (snd (run (client.check_approval W self token))) /\
   (length (snd (run (client.check_approval W self token))) <= 1)%nat) /\
  (Forall (fun ev => is_allowance_read ev = true)
     (snd (run (client.setup W self token false))) /\
   (length (snd (run (client.setup W self token false))) <= 1)%nat).
Proof.
  unfold client.check_approval, client.setup, approval.ensure_approval, run.
  destruct (client.missing (environ_PRIVATE_KEY W));
    [repeat split; cbn; auto using only_reads_nil|].
  destruct (client.missing (client.table_get token (client.TOKENS (client.network self))));
    [repeat split; cbn; auto using only_reads_nil|].
  unfold bind.
  destruct (approval.check_approval W (client.the (environ_PRIVATE_KEY W))
              (client.the (client.table_get token (client.TOKENS (client.network self))))
              (client.RELAYERS (client.network self)) (client.network self) None [])
    as [r t'] eqn:E.
  assert (Ht : Forall (fun ev => is_allowance_read ev = true) t' /\ (length t' <= 1)%nat).
  { apply check_approval_trace in E. destruct E as [->|(a & b & c & ->)]; cbn;
      auto using only_reads_nil, only_reads_one. }
  split; [exact Ht|].
  destruct r as [[is_approved allowance]|e]; [|exact Ht].
  destruct is_approved; exact Ht.
Qed.

(** X4.  For every allowance the token contract can return, zero included,
    [B402.setup] reports the token approved with that allowance and no
    transaction id, after the one allowance read: it approves nothing, with
    auto-approve on as with auto-approve off. *)
Theorem setup_approves_nothing
    (W : World) (self : client.B402) (token : string) (auto_approve : bool)
    (account tok owner spender : string) (a : Z) :
  client.missing (environ_PRIVATE_KEY W) = false ->
  client.missing (client.table_get token (client.TOKENS (client.network self))) = false ->
  from_key W (client.the (environ_PRIVATE_KEY W)) = Ok account ->
  to_checksum_address W
    (client.the (client.table_get token (client.TOKENS (client.network self)))) = Ok tok ->
  to_checksum_address W account = Ok owner ->
  to_checksum_address W (client.RELAYERS (client.network self)) = Ok spender ->
  allowance_call W (client.network self) tok owner spender = Ok a ->
  0 <= a ->
  run (client.setup W self token auto_approve)
    = (Ok (approval.mk_ApprovalStatus true a None),
       [RpcAllowance (client.network self) tok owner spender]).
Proof.
  intros Hkey Htok Hfrom Hct Hco Hcs Ha Hpos.
  unfold client.setup. rewrite Hkey, Htok.
  unfold run, approval.ensure_approval, bind.
  rewrite (check_approval_reads _ _ _ _ _ _ _ _ _ _ _ _ Hfrom Hct Hco Hcs Ha).
  replace (a >=? 0) with true; [reflexivity|].
  symmetry. rewrite Z.geb_leb. now apply Z.leb_le.
Qed.

Lemma setup_approves_nothing_witness :
  run (client.setup Scenarios.unfunded Scenarios.client_default "USDT" true)
    = (Ok (approval.mk_ApprovalStatus true 0 None),
       [RpcAllowance mainnet Scenarios.usdt Scenarios.payer_address
          (client.RELAYERS mainnet)]).
Proof.
  apply (setup_approves_nothing Scenarios.unfunded Scenarios.client_default "USDT" true
           Scenarios.payer_address Scenarios.usdt Scenarios.payer_address
           (client.RELAYERS mainnet) 0);
    reflexivity || lia.
Defined.

(** X5.  With auto-approve off, every call [pay] makes outside the process is a
    read of the allowance or a post to the facilitator: it builds and sends
    no transaction, whatever the inputs and the collaborators' answers. *)
Theorem pay_without_auto_approve_sends_nothing
    (W : World) (self : client.B402) (amount token recipient : string)
    (timeout_seconds : Z) :
  Forall (fun ev => is_allowance_read ev = true \/ is_http ev = true)
    (snd (run (client.pay W self amount token recipient timeout_seconds false))) /\
  existsb sends_transaction
    (snd (run (client.pay W self amount token recipient timeout_seconds false))) = false.
Proof.
  assert (H : Forall (fun ev => is_allowance_read ev = true \/ is_http ev = true)
                (snd (run (client.pay W self amount token recipient timeout_seconds false)))).
  { destruct (run (client.pay W self amount token recipient timeout_seconds false))
      as [res tr] eqn:E. cbn [snd].
    unfold client.pay, client.pay_try, client.proceed in E.
    unfold_effects. cbn [negb] in E.
    steps E; tidy.
    all: repeat match goal with
           | H : approval.check_approval _ _ _ _ _ _ _ = _ |- _ =>
               apply check_approval_trace in H; destruct H as [?|(? & ? & ? & ?)]
           | H : wallet.process_payment _ _ _ _ = _ |- _ =>
               apply process_payment_steps in H
           | H : client.verify_and_settle _ _ _ _ _ _ _ _ _ = _ |- _ =>
               apply verify_and_settle_steps in H;
               destruct H as [[? _]|(? & _)]
           end; subst; cbn [app].
    all: repeat first [apply Forall_nil | apply Forall_cons; [first [left; reflexivity | right; reflexivity]|]]. }
  split; [exact H|].
  induction H as [|ev l [Hev|Hev] _ IH]; [reflexivity| |];
    cbn [existsb]; rewrite IH; destruct ev; try discriminate; reflexivity.
Qed.

(** ** wallet.py: what is signed and what is published *)

Lemma substring_all (s : string) : String.substring 0 (String.length s) s = s.
Proof. induction s as [|c s IH]; cbn; [reflexivity|]. now rewrite IH. Qed.

(** The nonce bytes that are signed are those of the nonce that is sent. *)
Lemma nonce_bytes (h : string) :
  String.substring 2 (String.length ("0x" ++ h) - 2) ("0x" ++ h) = h.
Proof. cbn. rewrite Nat.sub_0_r. apply substring_all. Qed.

(** What [process_payment] asks to be signed, and the payload it makes of it. *)
Lemma process_payment_signs W requirements private_key t payload t' :
  wallet.process_payment W requirements private_key t = (Ok payload, t') ->
  exists account a_from a_to value contract signature,
    from_key W private_key = Ok account /\
    to_checksum_address W account = Ok a_from /\
    to_checksum_address W (payTo requirements) = Ok a_to /\
    int_of_str (maxAmountRequired requirements) = Ok value /\
    to_checksum_address W (relayerContract requirements) = Ok contract /\
    sign_message W private_key
      (mk_Domain "B402" "1"
         (if String.eqb (req_network requirements) "bsc" then 56 else 97) contract)
      (mk_Authorization a_from a_to value 0
         (time_now W + maxTimeoutSeconds requirements) (token_hex W))
      = Ok signature /\
    payload = mk_Payload 1 "exact" (req_network requirements) (asset requirements)
                a_from a_to (str_of_int value) "0"
                (str_of_int (time_now W + maxTimeoutSeconds requirements))
                ("0x" ++ token_hex W) ("0x" ++ signature) /\
    t' = t.
Proof.
  unfold wallet.process_payment. unfold_effects. rewrite nonce_bytes. intros H.
  steps H; try discriminate.
  all: injection H as <- <-.
  all: do 6 eexists; repeat (split; [first [eassumption|reflexivity]|]); reflexivity.
Qed.

(** X6.  A payload that [process_payment] returns publishes what was signed:
    the signature is that of the authorization (from, to, value, 0, now +
    maxTimeoutSeconds, nonce) in the domain B402 / 1 / chain id / relayer,
    whose chain id is 56 when the requirements name the network "bsc" and
    97 for every other network name; the payload carries the same from and
    to, the value and the two bounds as decimal strings, and the nonce with
    its 0x prefix.  Nothing outside the process is called. *)
Theorem process_payment_publishes_what_it_signs
    (W : World) (requirements : Requirements) (private_key : string)
    (payload : Payload) (tr : list event) :
  run (wallet.process_payment W requirements private_key) = (Ok payload, tr) ->
  exists account a_from a_to value contract signature,
    from_key W private_key = Ok account /\
    to_checksum_address W account = Ok a_from /\
    to_checksum_address W (payTo requirements) = Ok a_to /\
    int_of_str (maxAmountRequired requirements) = Ok value /\
    to_checksum_address W (relayerContract requirements) = Ok contract /\
    sign_message W private_key
      (mk_Domain "B402" "1"
         (if String.eqb (req_network requirements) "bsc" then 56 else 97) contract)
      (mk_Authorization a_from a_to value 0
         (time_now W + maxTimeoutSeconds requirements) (token_hex W))
      = Ok signature /\
    payload = mk_Payload 1 "exact" (req_network requirements) (asset requirements)
                a_from a_to (str_of_int value) "0"
                (str_of_int (time_now W + maxTimeoutSeconds requirements))
                ("0x" ++ token_hex W) ("0x" ++ signature) /\
    tr = [].
Proof. unfold run. apply process_payment_signs. Qed.

Lemma process_payment_publishes_what_it_signs_witness :
  exists payload,
    run (wallet.process_payment Scenarios.funded Scenarios.requirements_3600 Scenarios.key)
      = (Ok payload, []) /\
    sign_message Scenarios.funded Scenarios.key
      (mk_Domain "B402" "1" 56 (client.RELAYERS mainnet))
      (mk_Authorization Scenarios.payer_address Scenarios.recipient_address (10 ^ 16) 0
         (Scenarios.now + 3600) (token_hex Scenarios.funded))
      = Ok "5161" /\
    p_signature payload = "0x5161" /\
    p_value payload = "10000000000000000" /\
    p_nonce payload = "0x" ++ token_hex Scenarios.funded.
Proof.
  destruct (run (wallet.process_payment Scenarios.funded Scenarios.requirements_3600
                   Scenarios.key)) as [[payload|e] tr] eqn:E;
    [|vm_compute in E; discriminate].
  destruct (process_payment_publishes_what_it_signs _ _ _ _ _ E)
    as (account & a_from & a_to & value & contract & signature
        & Hk & Hf & Ht & Hv & Hc & Hs & -> & ->).
  injection Hk as <-. injection Hf as <-. injection Ht as <-. injection Hc as <-.
  assert (Hval : value = 10 ^ 16) by (vm_compute in Hv; injection Hv as <-; reflexivity).
  subst value.
  assert (Hsig : signature = "5161") by (vm_compute in Hs; injection Hs as <-; reflexivity).
  subst signature.
  eexists. split; [reflexivity|]. split; [exact Hs|].
  repeat split; vm_compute; reflexivity.
Defined.

(** ** client.py: what [pay] posts to the facilitator *)

Section PayExchange.

Variables (W : World) (self : client.B402).
Variables (amount token recipient : string) (timeout_seconds : Z) (auto_approve : bool).

(** A run of [pay] that reaches the facilitator signed a payload for the
    requirements it built, and hands both to the exchange. *)
Lemma pay_exchange res tr :
  run (client.pay W self amount token recipient timeout_seconds auto_approve) = (res, tr) ->
  Forall (approval_policy W self amount auto_approve) tr \/
  (exists account w payload pre r0,
      client.missing (environ_PRIVATE_KEY W) = false /\
      from_key W (client.the (environ_PRIVATE_KEY W)) = Ok account /\
      client.amount_to_wei amount = Ok w /\
      Forall (approval_policy W self amount auto_approve) pre /\
      wallet.process_payment W
        (client.build_requirements self recipient timeout_seconds
           (client.the (client.table_get token (client.TOKENS (client.network self)))) w)
        (client.the (environ_PRIVATE_KEY W)) pre = (Ok payload, pre) /\
      client.verify_and_settle W self amount token recipient account payload
        (client.build_requirements self recipient timeout_seconds
           (client.the (client.table_get token (client.TOKENS (client.network self)))) w)
        pre = (r0, tr) /\
      res = Ok (match r0 with
                | Ok pr => pr
                | Raise e => client.failed (exn_str e) "" recipient amount token
                end)).
Proof.
  unfold client.pay, client.pay_try, client.proceed.
  unfold_effects. intros H.
  steps H; tidy.
  all: repeat match goal with
         | H : approval.check_approval _ _ _ _ _ _ _ = _ |- _ =>
             apply check_approval_steps in H;
             destruct H as [(? & ? & ? & ? & ?)|(? & ? & ? & ? & ? & ? & ?)]
         | H : approval.approve_token _ _ _ _ _ _ _ = _ |- _ =>
             apply approve_token_steps in H; destruct H as (? & ? & ?)
         | H : wallet.process_payment _ _ _ ?t = (_, ?t') |- _ =>
             assert_fails (constr_eq t t');
             pose proof (process_payment_steps _ _ _ _ _ _ H); subst t'
         end; tidy; try discriminate.
  all: first
    [ left; solve [policy]
    | right; do 5 eexists; repeat (split; [eassumption || reflexivity|]);
      split; [|split; [eassumption|split; [eassumption|reflexivity]]]; solve [policy] ].
Qed.

(** Every post of [pay] goes to the verify or the settle endpoint of the
    facilitator, with requirements built from the call's arguments and a
    payload that [process_payment] signed for exactly these requirements. *)
Lemma pay_posts res tr url payload requirements :
  run (client.pay W self amount token recipient timeout_seconds auto_approve) = (res, tr) ->
  In (HttpPost url payload requirements) tr ->
  exists w pre,
    client.amount_to_wei amount = Ok w /\
    client.missing (environ_PRIVATE_KEY W) = false /\
    requirements =
      client.build_requirements self recipient timeout_seconds
        (client.the (client.table_get token (client.TOKENS (client.network self)))) w /\
    wallet.process_payment W requirements (client.the (environ_PRIVATE_KEY W)) pre
      = (Ok payload, pre) /\
    (url = client.verify_url self \/ url = client.settle_url self).
Proof.
  intros Hrun Hin.
  destruct (pay_exchange _ _ Hrun)
    as [Hpol|(account & w & payload0 & pre & r0 & Hkey & _ & Hw & Hpol & Hsign & Hex & _)].
  - exfalso. eapply policy_not_http; eassumption.
  - exists w, pre.
    apply verify_and_settle_steps in Hex.
    destruct Hex as [[-> _]|(-> & _)]; apply in_app_or in Hin;
      destruct Hin as [Hin|Hin];
      try (exfalso; eapply policy_not_http; eassumption).
    + destruct Hin as [[= <- <- <-]|[]]. repeat split; auto.
    + destruct Hin as [[= <- <- <-]|[[= <- <- <-]|[]]]; repeat split; auto.
Qed.

End PayExchange.

(** X7.  The amount that [pay] computes reaches the facilitator unchanged: every
    post of a run carries, as maxAmountRequired and as the authorization
    value, the decimal string of amount_wei = int(float(amount) * 10**18),
    and [process_payment], which reads it back with [int], signs amount_wei
    itself. *)
Theorem pay_posts_the_amount_it_computed
    (W : World) (self : client.B402) (amount token recipient : string)
    (timeout_seconds : Z) (auto_approve : bool)
    (res : result PaymentResult) (tr : list event)
    (url : string) (payload : Payload) (requirements : Requirements) :
  run (client.pay W self amount token recipient timeout_seconds auto_approve) = (res, tr) ->
  In (HttpPost url payload requirements) tr ->
  exists w,
    client.amount_to_wei amount = Ok w /\
    maxAmountRequired requirements = str_of_int w /\
    p_value payload = str_of_int w /\
    int_of_str (maxAmountRequired requirements) = Ok w /\
    int_of_str (p_value payload) = Ok w.
Proof.
  intros Hrun Hin.
  destruct (pay_posts _ _ _ _ _ _ _ _ _ _ _ _ Hrun Hin)
    as (w & pre & Hw & _ & -> & Hsign & _).
  exists w. split; [exact Hw|].
  rewrite (payload_value_of_requirements _ _ _ _ _ _ _ _ _ _ Hsign).
  cbn [client.build_requirements maxAmountRequired].
  rewrite int_of_str_of_int. auto.
Qed.

Lemma pay_posts_the_amount_it_computed_witness :
  exists res tr url payload requirements,
    Scenarios.pay_in Scenarios.funded "0.01" true = (res, tr) /\
    In (HttpPost url payload requirements) tr /\
    p_value payload = "10000000000000000" /\
    maxAmountRequired requirements = "10000000000000000".
Proof.
  destruct (Scenarios.pay_in Scenarios.funded "0.01" true) as [res tr] eqn:E.
  pose proof E as E'. vm_compute in E'. injection E' as <- <-.
  lazymatch type of E with
  | _ = (_, [_; HttpPost ?u ?p ?r; _]) =>
      assert (Hin : In (HttpPost u p r)
                      (snd (Scenarios.pay_in Scenarios.funded "0.01" true)))
        by (rewrite E; right; left; reflexivity);
      rewrite E in Hin; cbn [snd] in Hin;
      destruct (pay_posts_the_amount_it_computed _ _ _ _ _ _ _ _ _ _ _ _ E Hin)
        as (w & Hw & Hreq & Hval & _);
      do 2 eexists; exists u, p, r
  end.
  assert (w = 10 ^ 16) as -> by (vm_compute in Hw; injection Hw as <-; reflexivity).
  split; [reflexivity|]. split; [exact Hin|]. split; [exact Hval|exact Hreq].
Defined.

(** X8.  What [pay] posts was signed for this payment: the signature in a posted
    payload is that of an authorization from the key's account to the
    recipient, for amount_wei, valid until the time of signing plus
    timeout_seconds, in the domain of the client's network (chain id 56 on
    mainnet, 97 on testnet) and of its relayer contract. *)
Theorem pay_signs_for_its_network
    (W : World) (self : client.B402) (amount token recipient : string)
    (timeout_seconds : Z) (auto_approve : bool)
    (res : result PaymentResult) (tr : list event)
    (url : string) (payload : Payload) (requirements : Requirements) :
  run (client.pay W self amount token recipient timeout_seconds auto_approve) = (res, tr) ->
  In (HttpPost url payload requirements) tr ->
  exists w account a_from a_to contract signature,
    client.amount_to_wei amount = Ok w /\
    from_key W (client.the (environ_PRIVATE_KEY W)) = Ok account /\
    to_checksum_address W account = Ok a_from /\
    to_checksum_address W recipient = Ok a_to /\
    to_checksum_address W (client.RELAYERS (client.network self)) = Ok contract /\
    sign_message W (client.the (environ_PRIVATE_KEY W))
      (mk_Domain "B402" "1"
         (match client.network self with mainnet => 56 | testnet => 97 end) contract)
      (mk_Authorization a_from a_to w 0 (time_now W + timeout_seconds) (token_hex W))
      = Ok signature /\
    p_signature payload = "0x" ++ signature /\
    p_from payload = a_from /\
    p_to payload = a_to /\
    p_network payload
      = match client.network self with mainnet => "bsc" | testnet => "bsc-testnet" end /\
    p_token payload
      = client.the (client.table_get token (client.TOKENS (client.network self))).
Proof.
  intros Hrun Hin.
  destruct (pay_posts _ _ _ _ _ _ _ _ _ _ _ _ Hrun Hin)
    as (w & pre & Hw & _ & -> & Hsign & _).
  destruct (process_payment_signs _ _ _ _ _ _ Hsign)
    as (account & a_from & a_to & value & contract & signature
        & Hk & Hf & Ht & Hv & Hc & Hs & -> & _).
  cbn [client.build_requirements maxAmountRequired payTo relayerContract req_network
       maxTimeoutSeconds asset] in *.
  rewrite int_of_str_of_int in Hv. injection Hv as <-.
  exists w, account, a_from, a_to, contract, signature.
  repeat (split; [assumption|]).
  split.
  - destruct (client.network self); exact Hs.
  - repeat split; reflexivity.
Qed.

Lemma pay_signs_for_its_network_witness :
  exists res tr url payload requirements,
    Scenarios.pay_in Scenarios.funded "0.01" true = (res, tr) /\
    In (HttpPost url payload requirements) tr /\
    sign_message Scenarios.funded Scenarios.key
      (mk_Domain "B402" "1" 56 (client.RELAYERS mainnet))
      (mk_Authorization Scenarios.payer_address Scenarios.recipient_address (10 ^ 16) 0
         (Scenarios.now + 3600) (token_hex Scenarios.funded))
      = Ok "5161" /\
    p_signature payload = "0x5161".
Proof.
  destruct (Scenarios.pay_in Scenarios.funded "0.01" true) as [res tr] eqn:E.
  pose proof E as E'. vm_compute in E'. injection E' as <- <-.
  lazymatch type of E with
  | _ = (_, [_; HttpPost ?u ?p ?r; _]) =>
      assert (Hin : In (HttpPost u p r)
                      (snd (Scenarios.pay_in Scenarios.funded "0.01" true)))
        by (rewrite E; right; left; reflexivity);
      rewrite E in Hin; cbn [snd] in Hin;
      destruct (pay_signs_for_its_network _ _ _ _ _ _ _ _ _ _ _ _ E Hin)
        as (w & account & a_from & a_to & contract & signature
            & Hw & Hk & Hf & Ht & Hc & Hs & Hsig & _);
      do 2 eexists; exists u, p, r
  end.
  assert (w = 10 ^ 16) as -> by (vm_compute in Hw; injection Hw as <-; reflexivity).
  injection Hk as <-. injection Hf as <-. injection Ht as <-. injection Hc as <-.
  assert (signature = "5161") as ->
    by (vm_compute in Hs; injection Hs as <-; reflexivity).
  split; [reflexivity|]. split; [exact Hin|]. split; [exact Hs|exact Hsig].
Defined.

(** ** client.py: the order of the exchange *)

(** After a verify that passed, the exchange goes on to settle, provided the
    debug print of the answer goes through. *)
Lemma verify_passed_settles W self amount token recipient account payload requirements t :
  prints_succeed W self ->
  verify_passed W self payload requirements ->
  exists r,
    client.verify_and_settle W self amount token recipient account payload requirements t
      = (r, (t ++ [HttpPost (client.verify_url self) payload requirements;
                   HttpPost (client.settle_url self) payload requirements])%list).
Proof.
  intros Hprint (response & data & v & Hpost & Hst & Hjson & Hget & Hv).
  unfold client.verify_and_settle.
  unfold bind at 1. unfold call at 1. rewrite Hpost, Hst. cbn [negb Z.eqb Pos.eqb].
  unfold bind at 1. unfold pure at 1. rewrite Hjson.
  unfold bind at 1. rewrite (when_print W self _ _ Hprint).
  unfold_effects. rewrite Hget, Hv. cbn [negb].
  rewrite <- app_assoc. cbn [app].
  destruct (requests_post W (client.settle_url self) payload requirements) as [sr|e];
    [|eexists; reflexivity].
  destruct (negb (status_code sr =? 200)); [eexists; reflexivity|].
  destruct (resp_json sr) as [sd|e]; [|eexists; reflexivity].
  destruct (get sd "success" (JBool false)) as [sv|e]; [|eexists; reflexivity].
  destruct (negb (truthy sv)).
  - destruct (get sd "errorReason" (JStr "Unknown error")) as [rv|e];
      [|eexists; reflexivity].
    destruct (truthy sd); destruct (get sd "transaction" JNull); eexists; reflexivity.
  - destruct (get sd "transaction" JNull); eexists; reflexivity.
Qed.

(** X9.  [pay] goes on to settle after a verify that passed: when the
    facilitator answered a verify request of the run with HTTP 200 and a
    truthy isValid, and the debug prints go through (debug is off, or the
    writes to standard output return), the settle request for the same
    payload and requirements follows it, as the last call of the run. *)
Theorem settle_follows_a_valid_verify
    (W : World) (self : client.B402) (amount token recipient : string)
    (timeout_seconds : Z) (auto_approve : bool)
    (res : result PaymentResult) (tr : list event)
    (payload : Payload) (requirements : Requirements) :
  run (client.pay W self amount token recipient timeout_seconds auto_approve) = (res, tr) ->
  In (HttpPost (client.verify_url self) payload requirements) tr ->
  verify_passed W self payload requirements ->
  prints_succeed W self ->
  exists pre,
    tr = (pre ++ [HttpPost (client.verify_url self) payload requirements;
                  HttpPost (client.settle_url self) payload requirements])%list /\
    forall ev, In ev pre -> is_http ev = false.
Proof.
  intros Hrun Hin Hpass Hprint.
  destruct (pay_exchange _ _ _ _ _ _ _ _ _ Hrun)
    as [Hpol|(account & w & payload0 & pre & r0 & _ & _ & _ & Hpol & _ & Hex & Hres)].
  { exfalso. eapply policy_not_http; eassumption. }
  assert (Hsame : HttpPost (client.verify_url self) payload requirements
                  = HttpPost (client.verify_url self) payload0
                      (client.build_requirements self recipient timeout_seconds
                         (client.the (client.table_get token
                                        (client.TOKENS (client.network self)))) w)).
  { pose proof Hex as Hex'. apply verify_and_settle_steps in Hex'.
    destruct Hex' as [[-> _]|(-> & _)]; apply in_app_or in Hin;
      destruct Hin as [Hin|Hin];
      try (exfalso; eapply policy_not_http; eassumption).
    - destruct Hin as [<-|[]]. reflexivity.
    - destruct Hin as [<-|[[= Hu _ _]|[]]]; [reflexivity|].
      exfalso. eapply verify_url_not_settle_url; eauto. }
  injection Hsame as Hp Hr. rewrite <- Hp, <- Hr in Hex.
  exists pre. split; [|eauto using policy_no_http].
  destruct (verify_passed_settles W self amount token recipient account _ _ pre
              Hprint Hpass) as [r0' Hsettle].
  rewrite Hsettle in Hex. now injection Hex as _ <-.
Qed.

Lemma settle_follows_a_valid_verify_witness :
  exists res tr payload requirements pre,
    Scenarios.pay_in Scenarios.settle_refused_world "0.01" true = (res, tr) /\
    tr = (pre ++ [HttpPost (client.verify_url Scenarios.client_default) payload requirements;
                  HttpPost (client.settle_url Scenarios.client_default) payload requirements])%list.
Proof.
  destruct (Scenarios.pay_in Scenarios.settle_refused_world "0.01" true) as [res tr] eqn:E.
  pose proof E as E'. vm_compute in E'. injection E' as <- <-.
  lazymatch type of E with
  | _ = (_, [_; HttpPost _ ?p ?r; _]) =>
      assert (Hin : In (HttpPost (client.verify_url Scenarios.client_default) p r)
                      (snd (Scenarios.pay_in Scenarios.settle_refused_world "0.01" true)))
        by (rewrite E; right; left; reflexivity);
      rewrite E in Hin; cbn [snd] in Hin;
      assert (Hpass : verify_passed Scenarios.settle_refused_world
                        Scenarios.client_default p r)
        by (exists Scenarios.valid, (JDict [("isValid", JBool true)]), (JBool true);
            repeat split; reflexivity);
      destruct (settle_follows_a_valid_verify _ _ _ _ _ _ _ _ _ _ _ E Hin Hpass
                  (fun _ _ => eq_refl))
        as (pre & Htr & _);
      do 2 eexists; exists p, r, pre
  end.
  split; [reflexivity|exact Htr].
Defined.

(** ** client.py: the module-level [pay] *)

(** X10.  The module-level [pay] posts only to the verify and settle endpoints of
    https://facilitator.b402.ai, with requirements that name the chosen
    network ("bsc" for mainnet, "bsc-testnet" for testnet), its relayer
    contract, the recipient and the timeout given. *)
Theorem pay_factory_posts_to_the_default_facilitator
    (W : World) (amount token recipient : string) (network : NetworkType)
    (timeout_seconds : Z) (auto_approve debug : bool)
    (res : result PaymentResult) (tr : list event)
    (url : string) (payload : Payload) (requirements : Requirements) :
  run (client.pay_factory W amount token recipient network timeout_seconds
         auto_approve debug) = (res, tr) ->
  In (HttpPost url payload requirements) tr ->
  (url = "https://facilitator.b402.ai/verify" \/
   url = "https://facilitator.b402.ai/settle") /\
  req_network requirements
    = match network with mainnet => "bsc" | testnet => "bsc-testnet" end /\
  relayerContract requirements = client.RELAYERS network /\
  payTo requirements = recipient /\
  maxTimeoutSeconds requirements = timeout_seconds /\
  scheme requirements = "exact".
Proof.
  unfold client.pay_factory. intros Hrun Hin.
  destruct (pay_posts _ _ _ _ _ _ _ _ _ _ _ _ Hrun Hin)
    as (w & pre & _ & _ & -> & _ & Hurl).
  split; [exact Hurl|]. repeat split.
Qed.

Lemma pay_factory_posts_to_the_default_facilitator_witness :
  exists res tr,
    run (client.pay_factory Scenarios.funded "0.01" "USDT" Scenarios.recipient_address
           testnet 60 true false) = (res, tr) /\
    map posted_url tr
      = [None; Some "https://facilitator.b402.ai/verify";
         Some "https://facilitator.b402.ai/settle"] /\
    forall url payload requirements,
      In (HttpPost url payload requirements) tr ->
      req_network requirements = "bsc-testnet" /\
      relayerContract requirements = client.RELAYERS testnet.
Proof.
  destruct (run (client.pay_factory Scenarios.funded "0.01" "USDT"
                   Scenarios.recipient_address testnet 60 true false))
    as [res tr] eqn:E.
  exists res, tr. split; [reflexivity|]. split.
  - vm_compute in E. injection E as _ <-. reflexivity.
  - intros url payload requirements Hin.
    destruct (pay_factory_posts_to_the_default_facilitator _ _ _ _ _ _ _ _ _ _ _ _ _ E Hin)
      as (_ & Hn & Hr & _).
    split; assumption.
Defined.

(** ** client.py: the allowance gate, when the allowance suffices *)

(** X11.  When the allowance read is at least amount_wei, [pay] approves nothing,
    with auto-approve on as with auto-approve off: after the one allowance
    read it goes straight to the payment.  The amount is not checked
    otherwise: an amount of zero passes the gate with any allowance. *)
Theorem pay_with_enough_allowance
    (W : World) (self : client.B402) (amount token recipient : string)
    (timeout_seconds : Z) (auto_approve : bool)
    (account tok owner spender : string) (w a : Z) :
  client.missing (environ_PRIVATE_KEY W) = false ->
  from_key W (client.the (environ_PRIVATE_KEY W)) = Ok account ->
  client.missing (client.table_get token (client.TOKENS (client.network self))) = false ->
  client.amount_to_wei amount = Ok w ->
  to_checksum_address W
    (client.the (client.table_get token (client.TOKENS (client.network self)))) = Ok tok ->
  to_checksum_address W account = Ok owner ->
  to_checksum_address W (client.RELAYERS (client.network self)) = Ok spender ->
  allowance_call W (client.network self) tok owner spender = Ok a ->
  w <= a ->
  run (client.pay W self amount token recipient timeout_seconds auto_approve)
    = try_except
        (client.proceed W self amount token recipient timeout_seconds
           (client.the (environ_PRIVATE_KEY W)) account
           (client.the (client.table_get token (client.TOKENS (client.network self)))) w)
        (fun e => ret (client.failed (exn_str e) "" recipient amount token))
        [RpcAllowance (client.network self) tok owner spender] /\
  exists posts,
    snd (run (client.pay W self amount token recipient timeout_seconds auto_approve))
      = RpcAllowance (client.network self) tok owner spender :: posts /\
    Forall (fun ev => is_http ev = true) posts.
Proof.
  intros Hkey Hfrom Htok Hw Hct Hco Hcs Ha Hle.
  assert (Hrun : run (client.pay W self amount token recipient timeout_seconds auto_approve)
    = try_except
        (client.proceed W self amount token recipient timeout_seconds
           (client.the (environ_PRIVATE_KEY W)) account
           (client.the (client.table_get token (client.TOKENS (client.network self)))) w)
        (fun e => ret (client.failed (exn_str e) "" recipient amount token))
        [RpcAllowance (client.network self) tok owner spender]).
  { unfold client.pay. rewrite Hkey. unfold run, try_except, client.pay_try.
    unfold bind at 1. unfold pure at 1. rewrite Hfrom, Htok.
    unfold bind at 1. unfold pure at 1. rewrite Hw.
    unfold bind at 1.
    rewrite (check_approval_reads _ _ _ _ _ _ _ _ _ _ _ _ Hfrom Hct Hco Hcs Ha).
    replace (a >=? w) with true
      by (symmetry; rewrite Z.geb_leb; now apply Z.leb_le).
    reflexivity. }
  split; [exact Hrun|]. rewrite Hrun.
  destruct (try_except
              (client.proceed W self amount token recipient timeout_seconds
                 (client.the (environ_PRIVATE_KEY W)) account
                 (client.the (client.table_get token (client.TOKENS (client.network self)))) w)
              (fun e => ret (client.failed (exn_str e) "" recipient amount token))
              [RpcAllowance (client.network self) tok owner spender])
    as [res tr] eqn:E. cbn [snd].
  unfold client.proceed in E. unfold_effects.
  steps E; tidy.
  all: repeat match goal with
         | H : wallet.process_payment _ _ _ _ = _ |- _ =>
             apply process_payment_steps in H
         | H : client.verify_and_settle _ _ _ _ _ _ _ _ _ = _ |- _ =>
             apply verify_and_settle_steps in H;
             destruct H as [[? _]|(? & _)]
         end; subst; cbn [app].
  all: eexists; (split; [reflexivity|]); repeat constructor.
Qed.

Lemma pay_with_enough_allowance_witness :
  exists result,
    Scenarios.pay_in Scenarios.unfunded "0" true
      = try_except
          (client.proceed Scenarios.unfunded Scenarios.client_default "0" "USDT"
             Scenarios.recipient_address 3600 Scenarios.key Scenarios.payer_address
             Scenarios.usdt 0)
          (fun e => ret (client.failed (exn_str e) "" Scenarios.recipient_address
                           "0" "USDT"))
          [RpcAllowance mainnet Scenarios.usdt Scenarios.payer_address
             (client.RELAYERS mainnet)] /\
    fst (Scenarios.pay_in Scenarios.unfunded "0" true) = Ok result /\
    success result = JBool true /\
    map posted_value (snd (Scenarios.pay_in Scenarios.unfunded "0" true))
      = [None; Some "0"; Some "0"].
Proof.
  assert (Hw : client.amount_to_wei "0" = Ok 0) by (vm_compute; reflexivity).
  assert (Hle : 0 <= 0) by lia.
  destruct (pay_with_enough_allowance Scenarios.unfunded Scenarios.client_default
              "0" "USDT" Scenarios.recipient_address 3600 true
              Scenarios.payer_address Scenarios.usdt Scenarios.payer_address
              (client.RELAYERS mainnet) 0 0
              eq_refl eq_refl eq_refl Hw eq_refl eq_refl eq_refl eq_refl Hle)
    as (Hrun & _).
  eassert (Hres : fst (Scenarios.pay_in Scenarios.unfunded "0" true) = Ok _)
    by (vm_compute; reflexivity).
  eexists. split; [exact Hrun|]. split; [exact Hres|].
  split; [reflexivity|vm_compute; reflexivity].
Defined.

(** ** client.py: the debug flag *)

Lemma verify_and_settle_debug W network url amount token recipient account
    payload requirements t :
  (forall s, stdout_write W s = Ok tt) ->
  client.verify_and_settle W (client.mk_B402 network url true)
    amount token recipient account payload requirements t
  = client.verify_and_settle W (client.mk_B402 network url false)
      amount token recipient account payload requirements t.
Proof.
  intros Hprint. unfold client.verify_and_settle.
  change (client.verify_url (client.mk_B402 network url true))
    with (client.verify_url (client.mk_B402 network url false)).
  change (client.settle_url (client.mk_B402 network url true))
    with (client.settle_url (client.mk_B402 network url false)).
  unfold bind at 1. symmetry. unfold bind at 1. symmetry.
  destruct (call _ _ t) as [[response|e] t1]; [|reflexivity].
  destruct (negb (status_code response =? 200)); [reflexivity|].
  unfold bind at 1. symmetry. unfold bind at 1. symmetry.
  destruct (pure (resp_json response) t1) as [[data|e] t2]; [|reflexivity].
  unfold bind at 1. symmetry. unfold bind at 1. symmetry.
  unfold when, print, pure. cbn [client.debug]. rewrite Hprint. reflexivity.
Qed.

Lemma proceed_debug W network url amount token recipient timeout_seconds key account
    token_address w t :
  (forall s, stdout_write W s = Ok tt) ->
  client.proceed W (client.mk_B402 network url true)
    amount token recipient timeout_seconds key account token_address w t
  = client.proceed W (client.mk_B402 network url false)
      amount token recipient timeout_seconds key account token_address w t.
Proof.
  intros Hprint. unfold client.proceed. unfold bind at 1. symmetry. unfold bind at 1.
  symmetry. change (client.build_requirements (client.mk_B402 network url true))
    with (client.build_requirements (client.mk_B402 network url false)).
  destruct (wallet.process_payment W _ key t) as [[payload|e] t1]; [|reflexivity].
  unfold bind, when, print, pure. cbn [client.debug]. rewrite !Hprint.
  apply verify_and_settle_debug, Hprint.
Qed.

(** X12.  The debug flag changes nothing but what is printed, as long as
    printing works: if every write to standard output returns and the token
    contract returns no negative allowance, [pay] on a client with debug on
    returns the same result, after the same calls, as on a client with debug
    off.  (A print that raises is an exception inside the [try]: [pay] then
    fails with the text of that exception.) *)
Theorem debug_changes_nothing
    (W : World) (network : NetworkType) (facilitator_url : string)
    (amount token recipient : string) (timeout_seconds : Z) (auto_approve : bool) :
  (forall s, stdout_write W s = Ok tt) ->
  (forall net t o s a, allowance_call W net t o s = Ok a -> 0 <= a) ->
  run (client.pay W (client.mk_B402 network facilitator_url true)
         amount token recipient timeout_seconds auto_approve)
    = run (client.pay W (client.mk_B402 network facilitator_url false)
             amount token recipient timeout_seconds auto_approve).
Proof.
  intros Hprint Hnonneg.
  assert (Hon : prints_succeed W (client.mk_B402 network facilitator_url true))
    by (intros _; exact Hprint).
  assert (Hoff : prints_succeed W (client.mk_B402 network facilitator_url false))
    by (intros _; exact Hprint).
  unfold client.pay, run, try_except.
  destruct (client.missing (environ_PRIVATE_KEY W)); [reflexivity|].
  match goal with
  | |- match ?x with _ => _ end = match ?y with _ => _ end =>
      assert (Hsame : x = y); [|rewrite Hsame; reflexivity]
  end.
  unfold client.pay_try.
  unfold bind at 1. symmetry. unfold bind at 1. symmetry.
  unfold pure at 1. symmetry. unfold pure at 1. symmetry.
  destruct (from_key W (client.the (environ_PRIVATE_KEY W))) as [account|e];
    [|reflexivity].
  cbn [client.network].
  destruct (client.missing (client.table_get token (client.TOKENS network)));
    [reflexivity|].
  unfold bind at 1. symmetry. unfold bind at 1. symmetry.
  unfold pure at 1. symmetry. unfold pure at 1. symmetry.
  destruct (client.amount_to_wei amount) as [w|e] eqn:Hw; [|reflexivity].
  pose proof (amount_to_wei_bound _ _ Hw) as Hb.
  unfold bind at 1. symmetry. unfold bind at 1. symmetry.
  destruct (approval.check_approval W (client.the (environ_PRIVATE_KEY W))
              (client.the (client.table_get token (client.TOKENS network)))
              (client.RELAYERS network) network (Some w) []) as [r t1] eqn:E.
  apply check_approval_steps in E.
  destruct E as [(e & -> & _)|(x & y & z & a & -> & -> & Ha)]; [reflexivity|].
  destruct (a >=? w) eqn:Hge; cbn [negb]; [apply proceed_debug, Hprint|].
  apply geb_false in Hge. apply Hnonneg in Ha.
  destruct auto_approve; cbn [negb]; [|reflexivity].
  unfold bind at 1. symmetry. unfold bind at 1. symmetry.
  rewrite (when_print_amount W _ a
             (fun shown => "[DEBUG] Insufficient allowance (" ++ format_f 4 shown ++ " "
                           ++ token ++ ")") _ _ Hon) by lia.
  rewrite (when_print_amount W _ a
             (fun shown => "[DEBUG] Insufficient allowance (" ++ format_f 4 shown ++ " "
                           ++ token ++ ")") _ _ Hoff) by lia.
  unfold bind at 1. symmetry. unfold bind at 1. symmetry.
  unfold attempt.
  unfold bind at 1. symmetry. unfold bind at 1. symmetry.
  destruct (approval.approve_token W (client.the (environ_PRIVATE_KEY W))
              (client.the (client.table_get token (client.TOKENS network)))
              (client.RELAYERS network) network (Some (Z.max w client.approval_cap))
              ([] ++ [RpcAllowance network x y z])%list) as [[h|e] t2]; [|reflexivity].
  assert (Hcap : 0 <= Z.max w client.approval_cap < 2 ^ 1024)
    by (unfold client.approval_cap; change (2 ^ 1024) with (2 ^ 1000 * 2 ^ 24) in *; lia).
  unfold bind at 1. symmetry. unfold bind at 1. symmetry.
  rewrite (when_print_amount W _ (Z.max w client.approval_cap)
             (fun shown => "[DEBUG] Approved " ++ format_f 0 shown ++ " " ++ token ++ "!")
             _ _ Hon Hcap).
  rewrite (when_print_amount W _ (Z.max w client.approval_cap)
             (fun shown => "[DEBUG] Approved " ++ format_f 0 shown ++ " " ++ token ++ "!")
             _ _ Hoff Hcap).
  unfold ret at 1. symmetry. unfold ret at 1. symmetry.
  apply proceed_debug, Hprint.
Qed.

Lemma debug_changes_nothing_witness :
  run (client.pay Scenarios.unfunded
         (client.mk_B402 mainnet "https://facilitator.b402.ai" true)
         "0.01" "USDT" Scenarios.recipient_address 3600 true)
    = Scenarios.pay_in Scenarios.unfunded "0.01" true /\
  fst (run (client.pay Scenarios.stdout_closed_world Scenarios.client_debug
              "0.01" "USDT" Scenarios.recipient_address 3600 true))
    = Ok (mk_PaymentResult (JBool false) JNull (JStr "[Errno 32] Broken pipe")
            "" Scenarios.recipient_address "0.01" "USDT").
Proof.
  split; [|vm_compute; reflexivity].
  apply (debug_changes_nothing Scenarios.unfunded mainnet "https://facilitator.b402.ai"
           "0.01" "USDT" Scenarios.recipient_address 3600 true).
  - intros s. reflexivity.
  - intros net t o s a [= <-]. lia.
Defined.

(** ** client.py: the token table *)



(** ** client.py: the facilitator URL *)

Lemma text_app (a b : list ascii) : text (a ++ b) = text a ++ text b.
Proof. unfold text. induction a as [|c a IH]; cbn; [reflexivity|]. now rewrite IH. Qed.

Lemma chars_app (a b : string) : chars (a ++ b) = (chars a ++ chars b)%list.
Proof. unfold chars. induction a as [|c a IH]; cbn; [reflexivity|]. now rewrite IH. Qed.

Lemma text_chars (s : string) : text (chars s) = s.
Proof. apply string_of_list_ascii_of_string. Qed.

Lemma chars_text (l : list ascii) : chars (text l) = l.
Proof. apply list_ascii_of_string_of_list_ascii. Qed.

Lemma lstrip_char_split (x : ascii) (l : list ascii) :
  exists k, l = (repeat x k ++ lstrip_char x l)%list.
Proof.
  induction l as [|c l [k IH]]; [now exists 0%nat|]. cbn [lstrip_char].
  destruct (Ascii.eqb c x) eqn:E.
  - apply Ascii.eqb_eq in E. subst c. exists (S k). cbn. now rewrite <- IH.
  - now exists 0%nat.
Qed.

Lemma lstrip_char_head (x c : ascii) (l r : list ascii) :
  lstrip_char x l = (c :: r)%list -> c <> x.
Proof.
  induction l as [|c' l IH]; [discriminate|]. cbn [lstrip_char].
  destruct (Ascii.eqb c' x) eqn:E; [exact IH|].
  intros [= <- _]. now apply Ascii.eqb_neq.
Qed.

Lemma rev_repeat {A} (x : A) (k : nat) : rev (repeat x k) = repeat x k.
Proof.
  induction k as [|k IH]; [reflexivity|]. cbn [repeat rev]. rewrite IH.
  clear IH. induction k as [|k IH]; [reflexivity|]. cbn. now rewrite IH.
Qed.

(** X14.  [B402(...)] keeps the facilitator URL without its trailing slashes, and
    removes nothing else: the URL given is the URL kept followed by
    slashes only, the URL kept does not end with a slash, and a URL given
    with one more trailing slash makes the same client, so that the verify
    and settle addresses never have a doubled slash at the join. *)
Theorem init_strips_trailing_slashes
    (network : NetworkType) (url : string) (debug : bool) :
  (exists k,
     url = client.facilitator_url (client.init network url debug) ++ slashes k) /\
  (forall s, client.facilitator_url (client.init network url debug) <> s ++ "/") /\
  client.init network (url ++ "/") debug = client.init network url debug /\
  client.init network (client.facilitator_url (client.init network url debug)) debug
    = client.init network url debug.
Proof.
  unfold client.init. cbn [client.facilitator_url]. unfold rstrip_slash, slashes.
  destruct (lstrip_char_split "/"%char (rev (chars url))) as [k Hk].
  assert (Hurl : chars url
                 = (rev (lstrip_char "/"%char (rev (chars url))) ++ repeat "/"%char k)%list).
  { rewrite <- (rev_involutive (chars url)) at 1. rewrite Hk at 1.
    now rewrite rev_app_distr, rev_repeat. }
  assert (Hend : forall s, text (rev (lstrip_char "/"%char (rev (chars url)))) <> s ++ "/").
  { intros s H. apply (f_equal chars) in H.
    rewrite chars_text, chars_app in H. apply (f_equal (@rev ascii)) in H.
    rewrite rev_involutive, rev_app_distr in H. cbn in H.
    now apply lstrip_char_head in H. }
  split; [|split; [|split]].
  - exists k. rewrite <- text_app, <- Hurl. symmetry. apply text_chars.
  - exact Hend.
  - f_equal. rewrite chars_app, rev_app_distr. reflexivity.
  - f_equal. rewrite chars_text, rev_involutive.
    destruct (lstrip_char "/"%char (rev (chars url))) as [|c r] eqn:E; [reflexivity|].
    cbn [lstrip_char]. apply lstrip_char_head in E. apply Ascii.eqb_neq in E.
    now rewrite E.
Qed.

(** ** client.py: whole amounts *)

(** X15.  Every whole amount from "0" to "2362" converts exactly, to the amount
    times 10^18 base units. *)
Theorem whole_amounts_convert_exactly (n : Z) :
  0 <= n <= 2362 ->
  client.amount_to_wei (str_of_int n) = Ok (n * 10 ^ 18).
Proof.
  intros Hn.
  assert (Hall : forallb converts_exactly (map Z.of_nat (seq 0 2363)) = true)
    by (vm_compute; reflexivity).
  rewrite forallb_forall in Hall.
  assert (Hin : In n (map Z.of_nat (seq 0 2363))).
  { apply in_map_iff. exists (Z.to_nat n). split; [lia|]. apply in_seq. lia. }
  specialize (Hall n Hin). unfold converts_exactly in Hall.
  destruct (client.amount_to_wei (str_of_int n)) as [w|e]; [|discriminate].
  apply Z.eqb_eq in Hall. now subst w.
Qed.

Lemma whole_amounts_convert_exactly_witness :
  client.amount_to_wei "2362" = Ok 2362000000000000000000 /\
  converts_exactly 2363 = false.
Proof.
  split; [|vm_compute; reflexivity].
  assert (H : 0 <= 2362 <= 2362) by lia.
  exact (whole_amounts_convert_exactly 2362 H).
Defined.

(** ** client.py: the result and the order of calls *)

Lemma verify_and_settle_echoes W self amount token recipient account payload requirements
    t pr t' :
  client.verify_and_settle W self amount token recipient account payload requirements t
    = (Ok pr, t') ->
  payer pr = account /\ types.recipient pr = recipient /\
  types.amount pr = amount /\ types.token pr = token.
Proof.
  unfold client.verify_and_settle. unfold_effects. intros H.
  steps H; try discriminate; injection H as <- _; repeat split.
Qed.

(** X16.  Every result of [pay] echoes the recipient, the amount and the token it
    was called with, and names as payer either the address of the
    PRIVATE_KEY account or, when the failure came before that address was
    known or from an exception, the empty string. *)
Theorem pay_result_echoes_the_request
    (W : World) (self : client.B402) (amount token recipient : string)
    (timeout_seconds : Z) (auto_approve : bool) :
  exists result,
    fst (run (client.pay W self amount token recipient timeout_seconds auto_approve))
      = Ok result /\
    types.recipient result = recipient /\
    types.amount result = amount /\
    types.token result = token /\
    (payer result = "" \/
     from_key W (client.the (environ_PRIVATE_KEY W)) = Ok (payer result)).
Proof.
  destruct (run (client.pay W self amount token recipient timeout_seconds auto_approve))
    as [res tr] eqn:E. cbn [fst].
  unfold client.pay, client.pay_try, client.proceed in E.
  unfold_effects.
  steps E; tidy.
  all: repeat match goal with
         | H : client.verify_and_settle _ _ _ _ _ _ _ _ _ = (Ok _, _) |- _ =>
             apply verify_and_settle_echoes in H; destruct H as (? & ? & ? & ?)
         end; subst.
  all: eexists; split; [reflexivity|]; cbn [client.failed payer types.recipient
                                           types.amount types.token];
    repeat split; auto.
Qed.

(** X17.  In a run of [pay], the calls to the chain come first and the posts to
    the facilitator last, and there are at most two posts: nothing is read
    from or sent to the chain once the facilitator has been contacted, and
    no request to the facilitator is repeated. *)
Theorem pay_calls_the_chain_before_the_facilitator
    (W : World) (self : client.B402) (amount token recipient : string)
    (timeout_seconds : Z) (auto_approve : bool) :
  exists chain posts,
    snd (run (client.pay W self amount token recipient timeout_seconds auto_approve))
      = (chain ++ posts)%list /\
    Forall (fun ev => is_http ev = false) chain /\
    Forall (fun ev => is_http ev = true) posts /\
    (length posts <= 2)%nat /\
    NoDup (map posted_url posts).
Proof.
  destruct (run (client.pay W self amount token recipient timeout_seconds auto_approve))
    as [res tr] eqn:E. cbn [snd].
  assert (Hchain : forall l, Forall (approval_policy W self amount auto_approve) l ->
                             Forall (fun ev => is_http ev = false) l).
  { intros l. apply Forall_impl. now intros ev [H _]. }
  destruct (pay_exchange _ _ _ _ _ _ _ _ _ E)
    as [Hpol|(account & w & payload & pre & r0 & _ & _ & _ & Hpol & _ & Hex & _)].
  - exists tr, []. rewrite app_nil_r. repeat split; auto; cbn; auto; constructor.
  - apply verify_and_settle_steps in Hex.
    destruct Hex as [[-> _]|(-> & _)]; eexists pre, _; (split; [reflexivity|]);
      (split; [auto|]); (split; [repeat constructor|]); (split; [cbn; lia|]);
      cbn [map posted_url]; repeat constructor; cbn; try tauto.
    intros [[= H]|[]]. symmetry in H. revert H. apply verify_url_not_settle_url.
Qed.

(** ** client.py: a verify request that fails *)

(** The exchange of the run in which a verify request was posted. *)
Lemma pay_verify_post W self amount token recipient timeout_seconds auto_approve
    res tr payload requirements :
  run (client.pay W self amount token recipient timeout_seconds auto_approve) = (res, tr) ->
  In (HttpPost (client.verify_url self) payload requirements) tr ->
  exists account pre r0,
    from_key W (client.the (environ_PRIVATE_KEY W)) = Ok account /\
    (forall ev, In ev pre -> is_http ev = false) /\
    client.verify_and_settle W self amount token recipient account payload requirements pre
      = (r0, tr) /\
    res = Ok (match r0 with
              | Ok pr => pr
              | Raise e => client.failed (exn_str e) "" recipient amount token
              end).
Proof.
  intros Hrun Hin.
  destruct (pay_exchange _ _ _ _ _ _ _ _ _ Hrun)
    as [Hpol|(account & w & payload0 & pre & r0 & _ & Hfrom & _ & Hpol & _ & Hex & Hres)].
  - exfalso. eapply policy_not_http; eassumption.
  - exists account, pre, r0. split; [exact Hfrom|]. split; [eauto using policy_no_http|].
    split; [|exact Hres].
    assert (Hsame : HttpPost (client.verify_url self) payload requirements
                    = HttpPost (client.verify_url self) payload0
                        (client.build_requirements self recipient timeout_seconds
                           (client.the (client.table_get token
                                          (client.TOKENS (client.network self)))) w)).
    { pose proof Hex as Hex'. apply verify_and_settle_steps in Hex'.
      destruct Hex' as [[-> _]|(-> & _)]; apply in_app_or in Hin;
        destruct Hin as [Hin|Hin];
        try (exfalso; eapply policy_not_http; eassumption).
      - destruct Hin as [<-|[]]. reflexivity.
      - destruct Hin as [<-|[[= Hu _ _]|[]]]; [reflexivity|].
        exfalso. eapply verify_url_not_settle_url; eauto. }
    injection Hsame as Hp Hr. rewrite Hp, Hr. exact Hex.
Qed.

(** X18.  When the facilitator does not accept a verify request, [pay] stops
    there and says why, with success=False, no tx_hash and the payer's
    address.  For a status other than 200 the error is "Verify request
    failed: HTTP <status> - <body>".  For a 200 answer whose isValid is
    false or missing, and provided the debug print of the answer goes
    through, it is the answer's invalidReason ("Invalid signature" when
    there is none) followed by " | Response: " and the whole answer.  In
    both cases the verify request is the last call of the run, and settle
    is not requested. *)
Theorem verify_failure_is_reported
    (W : World) (self : client.B402) (amount token recipient : string)
    (timeout_seconds : Z) (auto_approve : bool)
    (res : result PaymentResult) (tr : list event)
    (payload : Payload) (requirements : Requirements) (response : Response) :
  run (client.pay W self amount token recipient timeout_seconds auto_approve) = (res, tr) ->
  In (HttpPost (client.verify_url self) payload requirements) tr ->
  requests_post W (client.verify_url self) payload requirements = Ok response ->
  (status_code response <> 200 ->
   exists account pre,
     res = Ok (mk_PaymentResult (JBool false) JNull
                 (JStr ("Verify request failed: HTTP "
                        ++ str_of_int (status_code response)
                        ++ " - " ++ resp_text response))
                 account recipient amount token) /\
     from_key W (client.the (environ_PRIVATE_KEY W)) = Ok account /\
     tr = (pre ++ [HttpPost (client.verify_url self) payload requirements])%list /\
     forall ev, In ev pre -> is_http ev = false) /\
  (forall data v reason,
     status_code response = 200 ->
     resp_json response = Ok data ->
     prints_succeed W self ->
     get data "isValid" JNull = Ok v ->
     truthy v = false ->
     get data "invalidReason" (JStr "Invalid signature") = Ok reason ->
     exists account pre,
       res = Ok (mk_PaymentResult (JBool false) JNull
                   (JStr (str reason ++ " | Response: " ++ str data))
                   account recipient amount token) /\
       from_key W (client.the (environ_PRIVATE_KEY W)) = Ok account /\
       tr = (pre ++ [HttpPost (client.verify_url self) payload requirements])%list /\
       forall ev, In ev pre -> is_http ev = false).
Proof.
  intros Hrun Hin Hpost.
  destruct (pay_verify_post _ _ _ _ _ _ _ _ _ _ _ Hrun Hin)
    as (account & pre & r0 & Hfrom & Hpre & Hex & ->).
  unfold client.verify_and_settle in Hex. unfold bind at 1 in Hex.
  unfold call at 1 in Hex. rewrite Hpost in Hex.
  split.
  - intros Hst. apply Z.eqb_neq in Hst. rewrite Hst in Hex. cbn [negb] in Hex.
    unfold ret in Hex. injection Hex as <- <-.
    exists account, pre. repeat split; auto.
  - intros data v reason Hst Hjson Hprint Hget Hv Hreason.
    rewrite Hst in Hex. cbn [negb Z.eqb Pos.eqb] in Hex.
    unfold bind at 1 in Hex. unfold pure at 1 in Hex. rewrite Hjson in Hex.
    unfold bind at 1 in Hex. rewrite (when_print W self _ _ Hprint) in Hex.
    unfold bind, pure, ret in Hex. rewrite Hget, Hv in Hex. cbn [negb] in Hex.
    rewrite Hreason in Hex. injection Hex as <- <-.
    exists account, pre. repeat split; auto.
Qed.

Lemma verify_failure_is_reported_witness :
  (exists tr,
     Scenarios.pay_in
       (Scenarios.world (Some Scenarios.key) (10 ^ 19) Scenarios.now
          (Ok Scenarios.expired) (Ok Scenarios.settled)) "0.01" true
       = (Ok (mk_PaymentResult (JBool false) JNull
                (JStr "expired | Response: {'isValid': False, 'invalidReason': 'expired'}")
                Scenarios.payer_address Scenarios.recipient_address "0.01" "USDT"),
          tr) /\
     existsb is_http_to_settle tr = false) /\
  (exists tr,
     Scenarios.pay_in
       (Scenarios.world (Some Scenarios.key) (10 ^ 19) Scenarios.now
          (Ok Scenarios.bad_gateway) (Ok Scenarios.settled)) "0.01" true
       = (Ok (mk_PaymentResult (JBool false) JNull
                (JStr "Verify request failed: HTTP 502 - Bad Gateway")
                Scenarios.payer_address Scenarios.recipient_address "0.01" "USDT"),
          tr) /\
     existsb is_http_to_settle tr = false).
Proof.
  split.
  - destruct (Scenarios.pay_in
                (Scenarios.world (Some Scenarios.key) (10 ^ 19) Scenarios.now
                   (Ok Scenarios.expired) (Ok Scenarios.settled)) "0.01" true)
      as [res tr] eqn:E.
    pose proof E as E'. vm_compute in E'. injection E' as _ <-.
    lazymatch type of E with
    | _ = (_, [_; HttpPost _ ?p ?r]) =>
        assert (Hin : In (HttpPost (client.verify_url Scenarios.client_default) p r)
                        [RpcAllowance mainnet Scenarios.usdt Scenarios.payer_address
                           (client.RELAYERS mainnet);
                         HttpPost (client.verify_url Scenarios.client_default) p r])
          by (right; left; reflexivity);
        destruct (verify_failure_is_reported _ _ _ _ _ _ _ _ _ p r Scenarios.expired E Hin
                    eq_refl) as [_ Hinvalid]
    end.
    destruct (Hinvalid (JDict [("isValid", JBool false); ("invalidReason", JStr "expired")])
                (JBool false) (JStr "expired") eq_refl eq_refl (fun _ _ => eq_refl)
                eq_refl eq_refl eq_refl)
      as (account & pre & -> & Hfrom & _).
    injection Hfrom as <-.
    eexists. split; [reflexivity|]. reflexivity.
  - destruct (Scenarios.pay_in
                (Scenarios.world (Some Scenarios.key) (10 ^ 19) Scenarios.now
                   (Ok Scenarios.bad_gateway) (Ok Scenarios.settled)) "0.01" true)
      as [res tr] eqn:E.
    pose proof E as E'. vm_compute in E'. injection E' as _ <-.
    lazymatch type of E with
    | _ = (_, [_; HttpPost _ ?p ?r]) =>
        assert (Hin : In (HttpPost (client.verify_url Scenarios.client_default) p r)
                        [RpcAllowance mainnet Scenarios.usdt Scenarios.payer_address
                           (client.RELAYERS mainnet);
                         HttpPost (client.verify_url Scenarios.client_default) p r])
          by (right; left; reflexivity);
        destruct (verify_failure_is_reported _ _ _ _ _ _ _ _ _ p r Scenarios.bad_gateway
                    E Hin eq_refl) as [Hrefused _]
    end.
    destruct Hrefused as (account & pre & -> & Hfrom & _); [discriminate|].
    injection Hfrom as <-.
    eexists. split; [reflexivity|]. reflexivity.
Defined.

